(** * EcoGuardAi: the outbreak risk assessment of [app.py]

    A shallow embedding of the Flask application's request handlers
    ([upload], [get_spread_trend], [approve_report], [reject_report]) and of
    the helpers they call ([predict_species], [calculate_distance]), with the
    SQLite database as explicit state.

    Modelling choices, each stated where it is used:
    - Python [float] values (coordinates, classifier confidence, distances,
      the composite risk score) are binary64 floats ([PrimFloat.float]), so
      NaN, the infinities and rounding are present;
    - the composite risk score is computed as the interpreter computes it
      ([risk_score_value]); the formula of the specification in exact
      arithmetic is [exact_score], and the two select the same risk text for
      all counts that an upload can reach ([risk_level_agrees_with_exact]);
    - a [created_at] text ('YYYY-MM-DD HH:MM:SS') is the number of seconds it
      denotes, a [Z]; SQLite's [datetime] comparisons are comparisons of
      these numbers;
    - the [math] module, the Keras model, the file system, the builtin
      [float] on texts and the clocks are parameters;
    - the pages that only read ([map_view], [dashboard], [alerts],
      [admin_review], [view_result]) are functions of the database; the
      order that SQLite gives to rows with equal [created_at] and the
      builtin [round] are parameters;
    - an id in a URL is a number that sqlite3 can bind, below 2^63. *)

From Stdlib Require Import ZArith QArith List String Bool Lia Lqa PrimFloat Uint63.
From Stdlib Require Import Ascii Permutation Sorted.
From Stdlib Require FloatOps FloatAxioms SpecFloat.
Import ListNotations.

Set Warnings "-inexact-float".

Local Open Scope string_scope.
Local Open Scope Z_scope.

(** ** Exceptions and the two monads of the handlers *)

(** The exceptions the modelled code can raise. *)
Inductive exn : Type :=
| IndexError   (* classes[class_index] out of range *)
| ValueError   (* math domain error; float() on a text that is no number *)
| TypeError    (* float(None) on a NULL column *)
| OverflowError
| BadRequestKeyError   (* request.files or request.form without the key *)
| OSError      (* the file cannot be written, or read as an image *)
| ModelError.  (* the image does not fit the input of the Keras model *)

Inductive outcome (A : Type) : Type :=
| Returned (a : A)
| Raised (e : exn).
Arguments Returned {A} a.
Arguments Raised {A} e.

Class Monad (m : Type -> Type) : Type := {
  ret : forall {A : Type}, A -> m A;
  bind : forall {A B : Type}, m A -> (A -> m B) -> m B
}.

Declare Scope monad_scope.
Delimit Scope monad_scope with monad.
Notation "x <- c ;; k" := (bind c (fun x => k))
  (at level 61, c at next level, right associativity) : monad_scope.
Notation "' p <- c ;; k" := (bind c (fun x => let p := x in k))
  (at level 61, p pattern, c at next level, right associativity) : monad_scope.
Notation "c ;;; k" := (bind c (fun _ => k))
  (at level 61, right associativity) : monad_scope.
Local Open Scope monad_scope.

#[export] Instance outcome_Monad : Monad outcome := {
  ret := @Returned;
  bind := fun A B c k =>
    match c with
    | Returned a => k a
    | Raised e => Raised e
    end
}.

(** ** The database *)

(** A REAL column: SQLite stores a NaN that is bound to a parameter as NULL,
    and a float that is a small integer as that integer, which reads back as
    the same float but for -0.0, read back as 0.0; every other float is
    stored as it is. *)
Definition bind_real (x : float) : option float :=
  if PrimFloat.is_nan x then None
  else if (x =? 0)%float then Some 0%float
  else Some x.

(** [float(v)] on a value read back from a REAL column. *)
Definition py_float (v : option float) : outcome float :=
  match v with
  | Some x => Returned x
  | None => Raised TypeError
  end.

Module reports.
Record row : Type := {
  id : Z;
  image : string;
  latitude : option float;
  longitude : option float;
  address : string;
  prediction : string;
  created_at : Z;
  verified : Z;
  confidence : option float;
  risk : string
}.
End reports.

Module alerts.
Record row : Type := {
  id : Z;
  latitude : option float;
  longitude : option float;
  severity : string;
  message : string;
  created_at : Z;
  status : string;
  species : string
}.
End alerts.

Module anomalies.
Record row : Type := {
  id : Z;
  latitude : option float;
  longitude : option float;
  radius : option float;
  description : string
}.
End anomalies.

(** A table with an INTEGER PRIMARY KEY AUTOINCREMENT: its rows in insertion
    order and the largest key handed out so far. *)
Record table (R : Type) : Type := {
  rows : list R;
  autoinc : Z
}.
Arguments rows {R} t.
Arguments autoinc {R} t.

(** [INSERT]: the new row gets the next key. *)
Definition insert {R : Type} (t : table R) (mk : Z -> R) : table R :=
  {| rows := rows t ++ [mk (autoinc t + 1)]; autoinc := autoinc t + 1 |}.

Record database : Type := {
  db_reports : table reports.row;
  db_alerts : table alerts.row;
  db_anomalies : table anomalies.row
}.

Definition empty_table {R : Type} : table R := {| rows := []; autoinc := 0 |}.

(** The database after [create_table] on a fresh file. *)
Definition create_table : database :=
  {| db_reports := empty_table; db_alerts := empty_table; db_anomalies := empty_table |}.

(** A handler working on a connection: it returns or raises, and leaves the
    connection's database as its statements made it.  The state is kept when
    an exception is raised, so that one can say which statements ran before
    it. *)
Definition M (A : Type) : Type := database -> outcome A * database.

#[export] Instance M_Monad : Monad M := {
  ret := fun A a db => (Returned a, db);
  bind := fun A B c k db =>
    match c db with
    | (Returned a, db') => k a db'
    | (Raised e, db') => (Raised e, db')
    end
}.

(** A computation that touches no table. *)
Definition lift {A : Type} (c : outcome A) : M A := fun db => (c, db).

Definition execute_select {A : Type} (q : database -> A) : M A :=
  fun db => (Returned (q db), db).

Definition execute_write (w : database -> database) : M unit :=
  fun db => (Returned tt, w db).

(** What SQLite does when the connection is closed: a handler that returned
    has committed; one that raised never reached [conn.commit()], and its
    statements are rolled back. *)
Definition run_request {A : Type} (h : M A) (db : database) : outcome A * database :=
  match h db with
  | (Returned a, db') => (Returned a, db')
  | (Raised e, _) => (Raised e, db)
  end.

(** ** Prediction (lines 74-95) *)

Definition classes : list string :=
  ["Dung beetle"; "Apple snail"; "Asian longhorned beetle"].

(** [x in l] on a list of strings. *)
Definition py_in (x : string) (l : list string) : bool :=
  existsb (String.eqb x) l.

(** [os.path.join(a, b)] for a non-empty [a] without a trailing separator. *)
Definition os_path_join (a b : string) : string :=
  if String.prefix "/" b then b else a ++ "/" ++ b.

(** ** The [math] module

    The C library's functions, taken as given.  [math.sin], [math.cos] and
    [math.sqrt] raise ValueError outside their domain (an infinite angle, a
    negative radicand); [float_pow] is [x ** y] on floats, which raises
    OverflowError when the result is out of range. *)
Class Math : Type := {
  math_radians : float -> float;
  math_sin : float -> outcome float;
  math_cos : float -> outcome float;
  math_sqrt : float -> outcome float;
  math_atan2 : float -> float -> float;
  float_pow : float -> float -> outcome float
}.

(** ** Rows read and written by [upload] *)

Definition invasive_species : list string :=
  ["Apple snail"; "Asian longhorned beetle"].

Definition seven_days : Z := 7 * 86400.
Definition fourteen_days : Z := 14 * 86400.

(** WHERE prediction IN ('Apple snail', 'Asian longhorned beetle')
    AND datetime(created_at) >= datetime('now', '-7 days') *)
Definition recent_invasive (now : Z) (r : reports.row) : bool :=
  py_in (reports.prediction r) invasive_species
  && (now - seven_days <=? reports.created_at r).

(** SELECT latitude, longitude, created_at FROM reports WHERE ... (lines 182-188) *)
Definition select_recent_invasive (now : Z) (db : database)
  : list (option float * option float * Z) :=
  map (fun r => (reports.latitude r, reports.longitude r, reports.created_at r))
      (filter (recent_invasive now) (rows (db_reports db))).

(** INSERT INTO anomalies (latitude, longitude, radius, description) (lines 197-201) *)
Definition insert_anomaly (latitude longitude radius : float) (description : string)
    (db : database) : database :=
  {| db_reports := db_reports db;
     db_alerts := db_alerts db;
     db_anomalies := insert (db_anomalies db) (fun i =>
       {| anomalies.id := i;
          anomalies.latitude := bind_real latitude;
          anomalies.longitude := bind_real longitude;
          anomalies.radius := bind_real radius;
          anomalies.description := description |}) |}.

(** INSERT INTO alerts (latitude, longitude, severity, message, created_at,
    status, species) (lines 218-225) *)
Definition insert_alert (latitude longitude : float) (severity message : string)
    (created_at : Z) (status species : string) (db : database) : database :=
  {| db_reports := db_reports db;
     db_alerts := insert (db_alerts db) (fun i =>
       {| alerts.id := i;
          alerts.latitude := bind_real latitude;
          alerts.longitude := bind_real longitude;
          alerts.severity := severity;
          alerts.message := message;
          alerts.created_at := created_at;
          alerts.status := status;
          alerts.species := species |});
     db_anomalies := db_anomalies db |}.

(** INSERT INTO reports (image, latitude, longitude, address, prediction,
    created_at, confidence, risk) (lines 228-232); [verified] takes its
    default, 0. *)
Definition insert_report (image : string) (latitude longitude : float)
    (address prediction : string) (created_at : Z) (confidence : float)
    (risk : string) (db : database) : database :=
  {| db_reports := insert (db_reports db) (fun i =>
       {| reports.id := i;
          reports.image := image;
          reports.latitude := bind_real latitude;
          reports.longitude := bind_real longitude;
          reports.address := address;
          reports.prediction := prediction;
          reports.created_at := created_at;
          reports.verified := 0;
          reports.confidence := bind_real confidence;
          reports.risk := risk |});
     db_alerts := db_alerts db;
     db_anomalies := db_anomalies db |}.

(** ** Risk scoring (lines 205-214) *)

(** An [int] count as the float it becomes when it is multiplied by a float:
    the nearest binary64 number, ties to even.  A count is a [len] or a loop
    counter below it, hence below 2^63. *)
Definition float_of_count (n : nat) : float :=
  PrimFloat.of_uint63 (Uint63.of_Z (Z.of_nat n)).

(** risk_score_value = (cluster_count * 0.4) + (recent_count * 0.3) + (anomaly_flag * 0.3),
    on binary64 floats and in the interpreter's order: three products, then
    the two sums from the left. *)
Definition risk_score_value (cluster_count recent_count anomaly_flag : nat) : float :=
  (float_of_count cluster_count * 0.4
   + float_of_count recent_count * 0.3
   + float_of_count anomaly_flag * 0.3)%float.

(** The if-chain of lines 207-214. *)
Definition risk_level (risk_score_value : float) : string :=
  if (risk_score_value <? 3)%float then "Low"
  else if (risk_score_value <? 6)%float then "Moderate"
  else if (risk_score_value <? 9)%float then "High"
  else "Critical ðŸš¨".

(** The composite score as the specification writes it,
    clusterCount * 0.4 + recentCount * 0.3 + anomalyFlag * 0.3, in exact
    arithmetic: what [risk_score_value] is compared with. *)
Definition exact_score (clusterCount recentCount anomalyFlag : nat) : Q :=
  (inject_Z (Z.of_nat clusterCount) * 0.4
   + inject_Z (Z.of_nat recentCount) * 0.3
   + inject_Z (Z.of_nat anomalyFlag) * 0.3)%Q.

(** The levels as the specification writes them, Low on [0, 3), Moderate
    on [3, 6), High on [6, 9), Critical on [9, oo), with the texts the code
    gives them: what [risk_level] is compared with. *)
Definition exact_level (score : Q) : string :=
  if Qlt_le_dec score 3 then "Low"
  else if Qlt_le_dec score 6 then "Moderate"
  else if Qlt_le_dec score 9 then "High"
  else "Critical ðŸš¨".

(** Two facts about a binary64 number read off its representation
    ([FloatOps.Prim2SF]): that it is a number and not negative, and that it
    is positive with an exponent of at least [k].  A number in normal form
    with exponent [e] lies in [[2^(e+52), 2^(e+53))]. *)
Definition sf_nonneg (x : SpecFloat.spec_float) : bool :=
  match x with
  | SpecFloat.S754_zero _ => true
  | SpecFloat.S754_infinity s | SpecFloat.S754_finite s _ _ => negb s
  | SpecFloat.S754_nan => false
  end.

Definition sf_at_least (k : Z) (x : SpecFloat.spec_float) : bool :=
  match x with
  | SpecFloat.S754_finite false _ e => k <=? e
  | SpecFloat.S754_infinity false => true
  | _ => false
  end.

Definition nonneg (x : float) : bool := sf_nonneg (FloatOps.Prim2SF x).

Definition at_least (k : Z) (x : float) : bool := sf_at_least k (FloatOps.Prim2SF x).

(** The risk text given before any scoring (lines 167-172). *)
Definition default_risk (result : string) : string :=
  if (result =? "Unknown Species")%string then "Uncertain - Low Confidence Detection"
  else if py_in result invasive_species then "High Risk (Invasive Species Detected)"
  else "Low Risk (Native Species)".

(** ** The handlers *)

(** The form fields of an upload after lines 155-158 have read them and
    [float(...)] has parsed the two coordinates.  [float] accepts 'nan',
    'inf' and 'infinity' in any case and with a sign, so every float can
    arrive here.  The form before that, which may lack a field or hold a
    text that is no number, is [multipart] below. *)
Record request : Type := {
  filename : string;
  form_latitude : float;
  form_longitude : float;
  form_address : string
}.

(** The clocks read while one upload runs: SQLite's 'now' in the SELECT, and
    [datetime.now()] for the alert and for the report. *)
Record clock : Type := {
  now_select : Z;
  now_alert : Z;
  now_report : Z
}.

(** The keyword arguments given to result.html (lines 237-244), without the
    rounded percentage. *)
Record response : Type := {
  page_image : string;
  page_prediction : string;
  page_risk : string;
  page_latitude : float;
  page_longitude : float;
  page_address : string
}.

Section Handlers.

Context {math : Math}.

(** The Keras model followed by [np.argmax]: the index of the winning class
    and its probability, for the image saved at a path (lines 84-90). *)
Variable model_predict : string -> nat * float.

(** Lines 83-95. *)
Definition predict_species (image_path : string) : outcome (string * float) :=
  let class_index := fst (model_predict image_path) in
  let confidence := snd (model_predict image_path) in
  if (confidence <? 0.70)%float then
    Returned ("Unknown Species", confidence)
  else
    match nth_error classes class_index with
    | Some label => Returned (label, confidence)
    | None => Raised IndexError
    end.

(** Lines 100-109, in the interpreter's order of evaluation. *)
Definition calculate_distance (lat1 lon1 lat2 lon2 : float) : outcome float :=
  let R := 6371%float in
  let dLat := math_radians (lat2 - lat1)%float in
  let dLon := math_radians (lon2 - lon1)%float in
  s1 <- math_sin (dLat / 2)%float ;;
  p1 <- float_pow s1 2%float ;;
  c1 <- math_cos (math_radians lat1) ;;
  c2 <- math_cos (math_radians lat2) ;;
  s2 <- math_sin (dLon / 2)%float ;;
  p2 <- float_pow s2 2%float ;;
  let a := (p1 + c1 * c2 * p2)%float in
  q1 <- math_sqrt a ;;
  q2 <- math_sqrt (1 - a)%float ;;
  let c := (2 * math_atan2 q1 q2)%float in
  ret (R * c)%float.

(** The loop of lines 191-194, started with the counter's current value. *)
Fixpoint count_cluster (latitude longitude : float)
    (invasive_reports : list (option float * option float * Z))
    (cluster_count : nat) : outcome nat :=
  match invasive_reports with
  | [] => Returned cluster_count
  | report :: rest =>
      lat <- py_float (fst (fst report)) ;;
      lon <- py_float (snd (fst report)) ;;
      dist <- calculate_distance latitude longitude lat lon ;;
      count_cluster latitude longitude rest
        (if (dist <=? 20)%float then S cluster_count else cluster_count)
  end.

(** The test of line 193 for one fetched row: whether the loop counts it. *)
Definition within_radius (latitude longitude : float)
    (report : option float * option float * Z) : bool :=
  match
    (lat <- py_float (fst (fst report)) ;;
     lon <- py_float (snd (fst report)) ;;
     calculate_distance latitude longitude lat lon)
  with
  | Returned dist => (dist <=? 20)%float
  | Raised _ => false
  end.

(** Lines 196-202: the anomaly row and the flag. *)
Definition emit_anomaly (latitude longitude : float) (cluster_count : nat) : M nat :=
  if (2 <=? cluster_count)%nat then
    execute_write (insert_anomaly latitude longitude 20000%float
                     "Vegetation Stress Detected via Satellite Correlation") ;;;
    ret 1%nat
  else ret 0%nat.

(** Lines 217-225: the alert row. *)
Definition emit_alert (clk : clock) (latitude longitude : float)
    (risk result : string) : M unit :=
  if py_in risk ["High"; "Critical ðŸš¨"] then
    execute_write (insert_alert latitude longitude risk
                     (result ++ " detected at high risk")
                     (now_alert clk) "Active" result)
  else ret tt.

(** Lines 163-244: the handler from the classification on, for the fields
    that lines 155-158 have read and the file that line 161 has saved, and
    for an image that the classifier takes ([model_predict] answers).  The
    lines before, and an image that makes the classifier raise, are in
    [upload_route] below. *)
Definition upload (clk : clock) (req : request) : M response :=
  let latitude := form_latitude req in
  let longitude := form_longitude req in
  let address := form_address req in
  let filepath := os_path_join "static" (filename req) in
  p <- lift (predict_species filepath) ;;
  let result := fst p in
  let confidence := snd p in
  let risk := default_risk result in
  risk <- (if py_in result invasive_species then
             invasive_reports <- execute_select (select_recent_invasive (now_select clk)) ;;
             let recent_count := List.length invasive_reports in
             cluster_count <- lift (count_cluster latitude longitude invasive_reports 0) ;;
             anomaly_flag <- emit_anomaly latitude longitude cluster_count ;;
             let risk := risk_level (risk_score_value cluster_count recent_count anomaly_flag) in
             emit_alert clk latitude longitude risk result ;;;
             ret risk
           else ret risk) ;;
  execute_write (insert_report (filename req) latitude longitude address result
                   (now_report clk) confidence risk) ;;;
  ret {| page_image := filename req;
         page_prediction := result;
         page_risk := risk;
         page_latitude := latitude;
         page_longitude := longitude;
         page_address := address |}.

End Handlers.

(** ** The request as it arrives (lines 154-163)

    What Flask has parsed of the POST: the file name of the part "image" and
    the three form fields, each of them present or not. *)
Record multipart : Type := {
  image_filename : option string;
  latitude_text : option string;
  longitude_text : option string;
  address_text : option string
}.

(** [d[key]] on [request.files] and [request.form]: a missing key raises
    BadRequestKeyError, which Flask answers with status 400. *)
Definition multidict_get {A : Type} (field : option A) : outcome A :=
  match field with
  | Some v => Returned v
  | None => Raised BadRequestKeyError
  end.

Section Route.

Context {math : Math}.

(** The builtin [float] on a text: the float it denotes, if any. *)
Variable float_of_text : string -> option float.

(** [file.save(filepath)]: the file is written, or the file system refuses. *)
Variable file_save : string -> outcome unit.

(** Lines 84-90 on the saved file: [Image.open], the resizing and
    [model.predict] raise on a file that is no image of the shape the model
    takes, and otherwise give the index of the winning class and its
    probability. *)
Variable image_predict : string -> outcome (nat * float).

(** [float(text)]. *)
Definition float_of_form (text : string) : outcome float :=
  match float_of_text text with
  | Some x => Returned x
  | None => Raised ValueError
  end.

(** Lines 154-244: the fields are read in the order of lines 155-158, the
    file is saved, the image classified, and the rest is [upload]. *)
Definition upload_route (clk : clock) (form : multipart) : M response :=
  file <- lift (multidict_get (image_filename form)) ;;
  latitude <- lift (text <- multidict_get (latitude_text form) ;; float_of_form text) ;;
  longitude <- lift (text <- multidict_get (longitude_text form) ;; float_of_form text) ;;
  address <- lift (multidict_get (address_text form)) ;;
  let filepath := os_path_join "static" file in
  lift (file_save filepath) ;;;
  prediction <- lift (image_predict filepath) ;;
  upload (fun _ => prediction) clk
    {| filename := file;
       form_latitude := latitude;
       form_longitude := longitude;
       form_address := address |}.

End Route.

(** ** Spread trend (lines 114-141) *)

(** WHERE prediction IN (...) AND datetime(created_at) BETWEEN
    datetime('now', '-14 days') AND datetime('now', '-7 days') *)
Definition previous_invasive (now : Z) (r : reports.row) : bool :=
  py_in (reports.prediction r) invasive_species
  && ((now - fourteen_days <=? reports.created_at r)
      && (reports.created_at r <=? now - seven_days)).

(** SELECT COUNT( * ) FROM reports WHERE ... *)
Definition select_count (p : reports.row -> bool) (db : database) : nat :=
  List.length (filter p (rows (db_reports db))).

(** Each of the two statements reads SQLite's 'now' for itself. *)
Definition get_spread_trend (now_current now_previous : Z) (db : database)
  : nat * nat * string :=
  let current_week := select_count (recent_invasive now_current) db in
  let previous_week := select_count (previous_invasive now_previous) db in
  let trend :=
    if (previous_week <? current_week)%nat then "Spreading ðŸ”º"
    else if (current_week =? previous_week)%nat then "Stable âž–"
    else "Declining ðŸ”»" in
  (current_week, previous_week, trend).

(** ** Review (lines 368-384) *)

Definition set_verified (v : Z) (r : reports.row) : reports.row :=
  {| reports.id := reports.id r;
     reports.image := reports.image r;
     reports.latitude := reports.latitude r;
     reports.longitude := reports.longitude r;
     reports.address := reports.address r;
     reports.prediction := reports.prediction r;
     reports.created_at := reports.created_at r;
     reports.verified := v;
     reports.confidence := reports.confidence r;
     reports.risk := reports.risk r |}.

(** UPDATE reports SET verified=? WHERE id=? *)
Definition update_verified (v report_id : Z) (db : database) : database :=
  {| db_reports :=
       {| rows := map (fun r => if reports.id r =? report_id then set_verified v r else r)
                      (rows (db_reports db));
          autoinc := autoinc (db_reports db) |};
     db_alerts := db_alerts db;
     db_anomalies := db_anomalies db |}.

(** Lines 368-375 and 377-384, for a [report_id] that sqlite3 can bind to the
    statement: the URL converter gives no negative number, and a number from
    2^63 on makes [execute] raise OverflowError, with nothing changed. *)
Definition approve_report (report_id : Z) : M string :=
  execute_write (update_verified 1 report_id) ;;;
  ret "Report Approved! <a href='/admin/review'>Back to Review</a>".

Definition reject_report (report_id : Z) : M string :=
  execute_write (update_verified (-1) report_id) ;;;
  ret "Report Rejected! <a href='/admin/review'>Back to Review</a>".

(** ** Sample inputs

    A stand-in for the [math] module that computes: small angles ([sin x] is
    [x], [cos x] is 1, [atan2 y x] is [y / x]), with the domain errors of the
    real functions. *)
Definition small_angle_math : Math :=
  {| math_radians := fun x => (x * 0.017453292519943295)%float;
     math_sin := fun x =>
       if PrimFloat.is_infinity x then Raised ValueError else Returned x;
     math_cos := fun x =>
       if PrimFloat.is_infinity x then Raised ValueError else Returned 1%float;
     math_sqrt := fun x =>
       if (x <? 0)%float then Raised ValueError else Returned (PrimFloat.sqrt x);
     math_atan2 := fun y x => (y / x)%float;
     float_pow := fun x _ => Returned (x * x)%float |}.

(** A classifier that answers every image with the same class and
    probability. *)
Definition constant_model (class_index : nat) (confidence : float)
  : string -> nat * float :=
  fun _ => (class_index, confidence).

(** A stand-in for [float] that reads three texts. *)
Definition sample_float_of_text (text : string) : option float :=
  if (text =? "0")%string then Some 0%float
  else if (text =? "inf")%string then Some infinity
  else if (text =? "nan")%string then Some nan
  else None.

Definition sample_form (latitude longitude : string) : multipart :=
  {| image_filename := Some "sighting.jpg";
     latitude_text := Some latitude;
     longitude_text := Some longitude;
     address_text := Some "Riverside" |}.

Definition sample_clock : clock :=
  {| now_select := 1000000; now_alert := 1000001; now_report := 1000002 |}.

Definition sample_request (latitude longitude : float) : request :=
  {| filename := "sighting.jpg";
     form_latitude := latitude;
     form_longitude := longitude;
     form_address := "Riverside" |}.

(** An invasive report as [upload] stores it. *)
Definition sample_report (i : Z) (latitude longitude : float) (created_at : Z)
  : reports.row :=
  {| reports.id := i;
     reports.image := "earlier.jpg";
     reports.latitude := bind_real latitude;
     reports.longitude := bind_real longitude;
     reports.address := "Riverside";
     reports.prediction := "Apple snail";
     reports.created_at := created_at;
     reports.verified := 0;
     reports.confidence := bind_real 0.9%float;
     reports.risk := "Low" |}.

Definition database_of_reports (l : list reports.row) : database :=
  {| db_reports := {| rows := l; autoinc := Z.of_nat (List.length l) |};
     db_alerts := empty_table;
     db_anomalies := empty_table |}.

(** [n] invasive reports at the origin, one second apart, the first at [t]. *)
Fixpoint reports_at_origin (n : nat) (i t : Z) : list reports.row :=
  match n with
  | O => []
  | S n' => sample_report i 0%float 0%float t :: reports_at_origin n' (i + 1) (t + 1)
  end.

(** Ten invasive reports at the origin in the week before [sample_clock]. *)
Definition sample_outbreak : database :=
  database_of_reports (reports_at_origin 10 1 999000).

(** The flag that lines 196-202 leave for a cluster count. *)
Definition anomaly_flag_of (cluster_count : nat) : nat :=
  if (2 <=? cluster_count)%nat then 1%nat else 0%nat.

(** Whether the binary64 score of the code and the exact score of the
    specification select the same risk text for every pair of counts
    [cluster_count <= recent_count <= bound], with the flag that goes with
    the cluster count. *)
Definition levels_agree_upto (bound : nat) : bool :=
  forallb (fun r =>
    forallb (fun c =>
      String.eqb (risk_level (risk_score_value c r (anomaly_flag_of c)))
                 (exact_level (exact_score c r (anomaly_flag_of c))))
      (List.seq 0 (S r)))
    (List.seq 0 (S bound)).

(** Whether the score is at least 1.7 for every pair of counts
    [2 <= cluster_count <= recent_count <= bound], with the flag set. *)
Definition anomaly_scores_upto (bound : nat) : bool :=
  forallb (fun r =>
    forallb (fun c => (1.7 <=? risk_score_value c r 1)%float)
      (List.seq 2 (r - 1)))
    (List.seq 0 (S bound)).

(** The state of the tables after the scoring branch of an upload, for a
    cluster count [c] over a window of [r] rows. *)
Definition scored_risk (c r : nat) : string :=
  risk_level (risk_score_value c r (anomaly_flag_of c)).

Definition after_anomaly (req : request) (c : nat) (db : database) : database :=
  if (2 <=? c)%nat
  then insert_anomaly (form_latitude req) (form_longitude req) 20000%float
         "Vegetation Stress Detected via Satellite Correlation" db
  else db.

Definition after_alert (clk : clock) (req : request) (risk result : string)
    (db : database) : database :=
  if py_in risk ["High"; "Critical ðŸš¨"]
  then insert_alert (form_latitude req) (form_longitude req) risk
         (result ++ " detected at high risk") (now_alert clk) "Active" result db
  else db.

Definition page (req : request) (result risk : string) : response :=
  {| page_image := filename req;
     page_prediction := result;
     page_risk := risk;
     page_latitude := form_latitude req;
     page_longitude := form_longitude req;
     page_address := form_address req |}.

Definition saved (clk : clock) (req : request) (result : string) (confidence : float)
    (risk : string) (db : database) : database :=
  insert_report (filename req) (form_latitude req) (form_longitude req)
    (form_address req) result (now_report clk) confidence risk db.

(** Two report rows that agree on every column but [verified]. *)
Definition same_but_verified (r r' : reports.row) : Prop :=
  reports.id r' = reports.id r /\
  reports.image r' = reports.image r /\
  reports.latitude r' = reports.latitude r /\
  reports.longitude r' = reports.longitude r /\
  reports.address r' = reports.address r /\
  reports.prediction r' = reports.prediction r /\
  reports.created_at r' = reports.created_at r /\
  reports.confidence r' = reports.confidence r /\
  reports.risk r' = reports.risk r.

(** ** The pages that only read (lines 249-349, 354-366, 386-416) *)

(** ORDER BY created_at DESC, as an insertion sort that leaves rows with the
    same timestamp in table order.  SQLite fixes no order among equal keys:
    what is proved about an ordered page is proved for every function that
    permutes its input and sorts it ([orders_by_desc]), and this one is such
    a function. *)
Fixpoint insert_desc {R : Type} (key : R -> Z) (x : R) (l : list R) : list R :=
  match l with
  | [] => [x]
  | y :: l' => if key y <=? key x then x :: l else y :: insert_desc key x l'
  end.

Definition sort_desc (R : Type) (key : R -> Z) (l : list R) : list R :=
  fold_right (insert_desc key) [] l.

Definition orders_by_desc
    (order_by : forall R : Type, (R -> Z) -> list R -> list R) : Prop :=
  forall (R : Type) (key : R -> Z) (l : list R),
    Permutation l (order_by R key l) /\
    StronglySorted (fun a b => key b <= key a) (order_by R key l).

(** The columns that admin_review.html receives for one report. *)
Module review_html.
Record row : Type := {
  id : Z;
  image : string;
  latitude : option float;
  longitude : option float;
  address : string;
  prediction : string;
  created_at : Z
}.
End review_html.

(** The keyword arguments of dashboard.html. *)
Module dashboard_html.
Record args : Type := {
  total : nat;
  invasive : nat;
  native : nat;
  active_alerts : nat;
  unverified_reports : nat;
  current_week : nat;
  previous_week : nat;
  trend : string;
  last_report_id : option Z
}.
End dashboard_html.

(** One dictionary of [alerts_list]. *)
Module alerts_html.
Record item : Type := {
  id : Z;
  latitude : option float;
  longitude : option float;
  severity : string;
  message : string;
  created_at : Z;
  status : string;
  is_invasive : bool;
  solution : string
}.
End alerts_html.

(** The keyword arguments that [view_result] gives to result.html. *)
Module result_html.
Record args : Type := {
  image : string;
  prediction : string;
  risk : string;
  latitude : option float;
  longitude : option float;
  address : string;
  confidence : float
}.
End result_html.

(** What [view_result] answers: the text 'Report not found', or the page. *)
Inductive result_view : Type :=
| Report_not_found
| Result_page (page : result_html.args).

(** The dictionary of lines 317-320. *)
Definition species_solutions : list (string * string) :=
  [("Apple snail",
    "Drain water and remove snails manually.Wear gloves and dispose properly.Monitor the area weekly for new snails.Consider introducing natural predators if appropriate");
   ("Asian longhorned beetle",
    "Cut and burn infested trees.Inspect nearby trees for eggs.Notify forestry authorities.Maintain quarantine measures.Monitor for regrowth or new infestations.")].

(** [d.get(key, default)]. *)
Definition dict_get (d : list (string * string)) (key default : string) : string :=
  match find (fun kv => (fst kv =? key)%string) d with
  | Some kv => snd kv
  | None => default
  end.

(** [s.split(' ')[0]]: the text before the first space. *)
Fixpoint split_first (s : string) : string :=
  match s with
  | EmptyString => EmptyString
  | String c rest =>
      if Ascii.eqb c " "%char then EmptyString else String c (split_first rest)
  end.

(** One iteration of the loop of lines 325-347.  A row of this table has
    eight columns, so [len(alert) > 7] holds; an empty species is false. *)
Definition alert_item (alert : alerts.row) : alerts_html.item :=
  let invasive_list := ["Apple snail"; "Asian longhorned beetle"] in
  let message := alerts.message alert in
  let species_name :=
    if negb (alerts.species alert =? "")%string then alerts.species alert
    else split_first message in
  {| alerts_html.id := alerts.id alert;
     alerts_html.latitude := alerts.latitude alert;
     alerts_html.longitude := alerts.longitude alert;
     alerts_html.severity := alerts.severity alert;
     alerts_html.message := message;
     alerts_html.created_at := alerts.created_at alert;
     alerts_html.status := alerts.status alert;
     alerts_html.is_invasive := py_in species_name invasive_list;
     alerts_html.solution :=
       dict_get species_solutions species_name "No solution available" |}.

(** SELECT id, image, latitude, longitude, address, prediction, created_at *)
Definition review_row (r : reports.row) : review_html.row :=
  {| review_html.id := reports.id r;
     review_html.image := reports.image r;
     review_html.latitude := reports.latitude r;
     review_html.longitude := reports.longitude r;
     review_html.address := reports.address r;
     review_html.prediction := reports.prediction r;
     review_html.created_at := reports.created_at r |}.

(** Lines 249-261: the report markers and the anomaly circles. *)
Definition map_view (db : database)
  : list (option float * option float * string)
    * list (option float * option float * option float * string) :=
  (map (fun r => (reports.latitude r, reports.longitude r, reports.prediction r))
       (rows (db_reports db)),
   map (fun a => (anomalies.latitude a, anomalies.longitude a,
                  anomalies.radius a, anomalies.description a))
       (rows (db_anomalies db))).

Section Pages.

(** How SQLite orders the rows of an ORDER BY created_at DESC. *)
Variable order_by_created_at_desc : forall R : Type, (R -> Z) -> list R -> list R.

(** The builtin [round(x, ndigits)] on a float. *)
Variable py_round : float -> Z -> float.

(** Lines 266-303. *)
Definition dashboard (now_current now_previous : Z) (db : database)
  : dashboard_html.args :=
  let total_reports := select_count (fun _ => true) db in
  let invasive_count :=
    select_count (fun r => py_in (reports.prediction r)
                             ["Apple snail"; "Asian longhorned beetle"]) db in
  let native_count :=
    select_count (fun r => (reports.prediction r =? "Dung beetle")%string) db in
  let active_alerts :=
    List.length (filter (fun a => (alerts.status a =? "Active")%string)
                        (rows (db_alerts db))) in
  let unverified_reports := select_count (fun r => reports.verified r =? 0) db in
  let last_report :=
    hd_error (order_by_created_at_desc _ reports.created_at (rows (db_reports db))) in
  let last_report_id :=
    match last_report with
    | Some r => Some (reports.id r)
    | None => None
    end in
  let spread := get_spread_trend now_current now_previous db in
  {| dashboard_html.total := total_reports;
     dashboard_html.invasive := invasive_count;
     dashboard_html.native := native_count;
     dashboard_html.active_alerts := active_alerts;
     dashboard_html.unverified_reports := unverified_reports;
     dashboard_html.current_week := fst (fst spread);
     dashboard_html.previous_week := snd (fst spread);
     dashboard_html.trend := snd spread;
     dashboard_html.last_report_id := last_report_id |}.

(** Lines 308-349. *)
Definition alerts_route (db : database) : list alerts_html.item :=
  let alerts_data :=
    order_by_created_at_desc _ alerts.created_at (rows (db_alerts db)) in
  map alert_item alerts_data.

(** Lines 354-366. *)
Definition admin_review (db : database) : list review_html.row :=
  map review_row
    (order_by_created_at_desc _ reports.created_at
       (filter (fun r => reports.verified r =? 0) (rows (db_reports db)))).

(** Lines 386-416, for a [report_id] that sqlite3 can bind to the statement
    (below 2^63; a larger one makes [execute] raise OverflowError).  The row
    is the one with the key; [report[5] * 100] is a TypeError on a NULL
    confidence. *)
Definition view_result (report_id : Z) (db : database) : outcome result_view :=
  match find (fun r => reports.id r =? report_id) (rows (db_reports db)) with
  | None => Returned Report_not_found
  | Some report =>
      match reports.confidence report with
      | None => Raised TypeError
      | Some c =>
          Returned (Result_page
            {| result_html.image := reports.image report;
               result_html.prediction := reports.prediction report;
               result_html.risk := reports.risk report;
               result_html.latitude := reports.latitude report;
               result_html.longitude := reports.longitude report;
               result_html.address := reports.address report;
               result_html.confidence := py_round (c * 100)%float 2 |})
      end
  end.

End Pages.

(** ** The requests that write *)

Inductive action : Type :=
| Upload (clk : clock) (req : request)
| Approve (report_id : Z)
| Reject (report_id : Z).

Section Server.

Context {math : Math}.
Variable model_predict : string -> nat * float.

(** The database that one request leaves behind. *)
Definition serve (db : database) (a : action) : database :=
  match a with
  | Upload clk req => snd (run_request (upload model_predict clk req) db)
  | Approve report_id => snd (run_request (approve_report report_id) db)
  | Reject report_id => snd (run_request (reject_report report_id) db)
  end.

(** The database after a sequence of requests, from the empty tables. *)
Definition replay (actions : list action) : database :=
  fold_left serve actions create_table.

End Server.

(** The keys of a table from which nothing is deleted: 1, 2, ... in row
    order, the counter at the last of them. *)
Definition keys_in_sequence {R : Type} (key : R -> Z) (t : table R) : Prop :=
  map key (rows t) = map Z.of_nat (List.seq 1 (List.length (rows t))) /\
  autoinc t = Z.of_nat (List.length (rows t)).

(** What the three writing handlers keep true of the rows they leave
    behind. *)
Definition report_consistent (r : reports.row) : Prop :=
  (reports.verified r = 0 \/ reports.verified r = 1 \/ reports.verified r = -1) /\
  ((reports.prediction r = "Unknown Species" /\
    reports.risk r = "Uncertain - Low Confidence Detection") \/
   (reports.prediction r = "Dung beetle" /\
    reports.risk r = "Low Risk (Native Species)") \/
   (py_in (reports.prediction r) invasive_species = true /\
    In (reports.risk r) ["Low"; "Moderate"; "High"; "Critical ðŸš¨"])).

Definition alert_consistent (a : alerts.row) : Prop :=
  alerts.status a = "Active" /\
  py_in (alerts.species a) invasive_species = true /\
  py_in (alerts.severity a) ["High"; "Critical ðŸš¨"] = true /\
  alerts.message a = alerts.species a ++ " detected at high risk".

Definition anomaly_consistent (db : database) (a : anomalies.row) : Prop :=
  anomalies.radius a = Some 20000%float /\
  anomalies.description a = "Vegetation Stress Detected via Satellite Correlation" /\
  exists r,
    In r (rows (db_reports db)) /\
    py_in (reports.prediction r) invasive_species = true /\
    reports.latitude r = anomalies.latitude a /\
    reports.longitude r = anomalies.longitude a.

Definition consistent (db : database) : Prop :=
  keys_in_sequence reports.id (db_reports db) /\
  keys_in_sequence alerts.id (db_alerts db) /\
  keys_in_sequence anomalies.id (db_anomalies db) /\
  Forall report_consistent (rows (db_reports db)) /\
  Forall alert_consistent (rows (db_alerts db)) /\
  Forall (anomaly_consistent db) (rows (db_anomalies db)) /\
  List.length (rows (db_alerts db))
    = select_count (fun r => py_in (reports.risk r) ["High"; "Critical ðŸš¨"]) db /\
  (List.length (rows (db_anomalies db))
   <= select_count (fun r => py_in (reports.prediction r) invasive_species) db)%nat.

(** Eleven uploads of an invasive sighting at the origin, then two review
    decisions. *)
Definition sample_session : list action :=
  (repeat (Upload sample_clock (sample_request 0 0)) 11
   ++ [Approve 1; Reject 2])%list.

(** An alert row as a table without the species column would have left
    it. *)
Definition sample_legacy_alert : alerts.row :=
  {| alerts.id := 1;
     alerts.latitude := Some 0%float;
     alerts.longitude := Some 0%float;
     alerts.severity := "High";
     alerts.message := "Apple snail detected at high risk";
     alerts.created_at := 999000;
     alerts.status := "Active";
     alerts.species := "" |}.

(** * Properties *)

(** ** The handlers as case analyses *)

Section HandlerFacts.

Context {math : Math}.
Variable model_predict : string -> nat * float.

(** The anomaly step writes a row exactly when the count reaches 2. *)
Lemma emit_anomaly_eq latitude longitude cluster_count db :
  emit_anomaly latitude longitude cluster_count db =
  (Returned (anomaly_flag_of cluster_count),
   if (2 <=? cluster_count)%nat
   then insert_anomaly latitude longitude 20000%float
          "Vegetation Stress Detected via Satellite Correlation" db
   else db).
Proof.
  unfold emit_anomaly, anomaly_flag_of.
  destruct (2 <=? cluster_count)%nat; reflexivity.
Qed.

Lemma emit_alert_eq clk latitude longitude risk result db :
  emit_alert clk latitude longitude risk result db =
  (Returned tt,
   if py_in risk ["High"; "Critical ðŸš¨"]
   then insert_alert latitude longitude risk (result ++ " detected at high risk")
          (now_alert clk) "Active" result db
   else db).
Proof.
  unfold emit_alert.
  destruct (py_in risk _); reflexivity.
Qed.

(** [upload], statement by statement. *)
Lemma upload_eq clk req db :
  upload model_predict clk req db =
  match predict_species model_predict (os_path_join "static" (filename req)) with
  | Raised e => (Raised e, db)
  | Returned (result, confidence) =>
      if py_in result invasive_species then
        let window := select_recent_invasive (now_select clk) db in
        match count_cluster (form_latitude req) (form_longitude req) window 0 with
        | Raised e => (Raised e, db)
        | Returned c =>
            let risk := scored_risk c (List.length window) in
            (Returned (page req result risk),
             saved clk req result confidence risk
               (after_alert clk req risk result (after_anomaly req c db)))
        end
      else
        (Returned (page req result (default_risk result)),
         saved clk req result confidence (default_risk result) db)
  end.
Proof.
  unfold upload.
  cbn [bind M_Monad lift].
  destruct (predict_species model_predict _) as [[result confidence] | e];
    [ | reflexivity ].
  cbn [fst snd].
  destruct (py_in result invasive_species); [ | reflexivity ].
  cbn [bind M_Monad lift execute_select].
  destruct (count_cluster _ _ _ _) as [c | e]; [ | reflexivity ].
  rewrite emit_anomaly_eq. cbn [bind M_Monad].
  rewrite emit_alert_eq. reflexivity.
Qed.

(** What an upload that returned has done. *)
Lemma upload_returned_inv clk req db resp db' :
  upload model_predict clk req db = (Returned resp, db') ->
  exists result confidence,
    predict_species model_predict (os_path_join "static" (filename req))
      = Returned (result, confidence) /\
    ((py_in result invasive_species = true /\
      exists c,
        let window := select_recent_invasive (now_select clk) db in
        let risk := scored_risk c (List.length window) in
        count_cluster (form_latitude req) (form_longitude req) window 0 = Returned c /\
        resp = page req result risk /\
        db' = saved clk req result confidence risk
                (after_alert clk req risk result (after_anomaly req c db)))
     \/
     (py_in result invasive_species = false /\
      resp = page req result (default_risk result) /\
      db' = saved clk req result confidence (default_risk result) db)).
Proof.
  rewrite upload_eq.
  destruct (predict_species model_predict _) as [[result confidence] | e];
    [ | discriminate ].
  intros H. exists result, confidence. split; [ reflexivity | ].
  destruct (py_in result invasive_species).
  - left. split; [ reflexivity | ].
    cbv zeta in H.
    destruct (count_cluster _ _ _ _) as [c | e] eqn:Hc; [ | discriminate ].
    exists c. cbv zeta. injection H as <- <-.
    split; [ exact Hc | split; reflexivity ].
  - right. injection H as <- <-. repeat split; reflexivity.
Qed.

(** An upload that raised had written nothing. *)
Lemma upload_raised_inv clk req db e db' :
  upload model_predict clk req db = (Raised e, db') -> db' = db.
Proof.
  rewrite upload_eq.
  destruct (predict_species model_predict _) as [[result confidence] | e0].
  - destruct (py_in result invasive_species); [ | discriminate ].
    cbv zeta.
    destruct (count_cluster _ _ _ _) as [c | e1]; [ discriminate | ].
    intros H. injection H as _ <-. reflexivity.
  - intros H. injection H as _ <-. reflexivity.
Qed.

End HandlerFacts.

(** ** Binary64 arithmetic

    What the score needs of the rounding of [FloatOps] and [SpecFloat]: the
    sign of a product and of a sum of numbers that are not negative, and a
    lower bound on the exponent of the result. *)

Module Binary64.
Import SpecFloat FloatOps FloatAxioms.

Lemma digits2_pos_bounds p :
  2 ^ (Zpos (digits2_pos p) - 1) <= Zpos p < 2 ^ Zpos (digits2_pos p).
Proof.
  induction p as [p IH|p IH|]; cbn [digits2_pos].
  - rewrite Pos2Z.inj_succ.
    replace (Z.succ (Zpos (digits2_pos p)) - 1) with (Z.succ (Zpos (digits2_pos p) - 1)) by lia.
    rewrite !Z.pow_succ_r by lia. lia.
  - rewrite Pos2Z.inj_succ.
    replace (Z.succ (Zpos (digits2_pos p)) - 1) with (Z.succ (Zpos (digits2_pos p) - 1)) by lia.
    rewrite !Z.pow_succ_r by lia. lia.
  - cbn. lia.
Qed.

Lemma digits2_pos_ge p k :
  2 ^ (k - 1) <= Zpos p -> k <= Zpos (digits2_pos p).
Proof.
  intros H. destruct (Z_lt_le_dec (Zpos (digits2_pos p)) k) as [Hlt|]; [ | assumption ].
  pose proof (digits2_pos_bounds p) as [_ Hup].
  assert (2 ^ Zpos (digits2_pos p) <= 2 ^ (k - 1)) by (apply Z.pow_le_mono_r; lia).
  lia.
Qed.

Lemma digits2_pos_mono p q :
  (p <= q)%positive -> Zpos (digits2_pos p) <= Zpos (digits2_pos q).
Proof.
  intros H. apply digits2_pos_ge.
  pose proof (digits2_pos_bounds p) as [Hlow _]. lia.
Qed.

Lemma digits2_pos_mul p q :
  Zpos (digits2_pos p) + Zpos (digits2_pos q) - 1 <= Zpos (digits2_pos (p * q)).
Proof.
  apply digits2_pos_ge.
  pose proof (digits2_pos_bounds p) as [Hp _].
  pose proof (digits2_pos_bounds q) as [Hq _].
  replace (Zpos (digits2_pos p) + Zpos (digits2_pos q) - 1 - 1)
    with ((Zpos (digits2_pos p) - 1) + (Zpos (digits2_pos q) - 1)) by lia.
  rewrite Z.pow_add_r by lia. rewrite Pos2Z.inj_mul.
  apply Z.mul_le_mono_nonneg; try assumption; apply Z.pow_nonneg; lia.
Qed.

Lemma digits2_pos_shift p d :
  Zpos (digits2_pos (Pos.iter xO p d)) = Zpos (digits2_pos p) + Zpos d.
Proof.
  induction d as [|d IH] using Pos.peano_ind.
  - cbn [Pos.iter digits2_pos]. lia.
  - rewrite Pos.iter_succ. cbn [digits2_pos]. lia.
Qed.

Lemma shr_record_of_loc_m m l : shr_m (shr_record_of_loc m l) = m.
Proof. destruct l as [|[]]; reflexivity. Qed.

Lemma shr_1_m mrs : 0 <= shr_m mrs -> shr_m (shr_1 mrs) = Z.div2 (shr_m mrs).
Proof.
  destruct mrs as [m r s]. destruct m as [|[p|p|]|p]; cbn; try reflexivity; lia.
Qed.

Lemma iter_shr_1_m n :
  forall mrs, 0 <= shr_m mrs ->
    shr_m (iter_pos shr_1 n mrs) = Z.shiftr (shr_m mrs) (Zpos n).
Proof.
  induction n as [n IH|n IH|]; intros mrs Hm; cbn [iter_pos].
  - assert (H1 : 0 <= shr_m (shr_1 mrs))
      by (rewrite shr_1_m by assumption; apply Z.div2_nonneg; assumption).
    assert (H2 : 0 <= shr_m (iter_pos shr_1 n (shr_1 mrs)))
      by (rewrite IH by assumption; apply Z.shiftr_nonneg; assumption).
    rewrite IH, IH, shr_1_m, Z.div2_spec by assumption.
    rewrite !Z.shiftr_shiftr by lia. f_equal. lia.
  - assert (H2 : 0 <= shr_m (iter_pos shr_1 n mrs))
      by (rewrite IH by assumption; apply Z.shiftr_nonneg; assumption).
    rewrite IH, IH by assumption.
    rewrite Z.shiftr_shiftr by lia. f_equal. lia.
  - rewrite shr_1_m, Z.div2_spec by assumption. reflexivity.
Qed.

Lemma shiftr_positive p n :
  0 <= n < Zpos (digits2_pos p) -> 0 < Z.shiftr (Zpos p) n.
Proof.
  intros Hn. rewrite Z.shiftr_div_pow2 by lia.
  pose proof (digits2_pos_bounds p) as [Hlow _].
  assert (2 ^ n <= 2 ^ (Zpos (digits2_pos p) - 1)) by (apply Z.pow_le_mono_r; lia).
  apply Z.div_str_pos. split; [ apply Z.pow_pos_nonneg; lia | lia ].
Qed.

Lemma shr_fexp_nonneg m e l :
  0 <= m -> 0 <= shr_m (fst (shr_fexp prec emax m e l)).
Proof.
  intros Hm. unfold shr_fexp, shr.
  destruct (fexp prec emax (Zdigits2 m + e) - e); cbn [fst].
  - rewrite shr_record_of_loc_m. assumption.
  - rewrite iter_shr_1_m, shr_record_of_loc_m by (rewrite shr_record_of_loc_m; assumption).
    apply Z.shiftr_nonneg. assumption.
  - rewrite shr_record_of_loc_m. assumption.
Qed.

Lemma shr_fexp_positive m e l :
  0 < m ->
  fexp prec emax (Zdigits2 m + e) - e < Zdigits2 m ->
  0 < shr_m (fst (shr_fexp prec emax m e l)) /\
  snd (shr_fexp prec emax m e l) = Z.max e (fexp prec emax (Zdigits2 m + e)).
Proof.
  intros Hm Hn. unfold shr_fexp, shr.
  destruct (fexp prec emax (Zdigits2 m + e) - e) as [|n|n] eqn:En; cbn [fst snd].
  - rewrite shr_record_of_loc_m. split; [ assumption | lia ].
  - rewrite iter_shr_1_m, shr_record_of_loc_m by (rewrite shr_record_of_loc_m; lia).
    split; [ | lia ].
    destruct m as [|p|p]; try lia. apply shiftr_positive. cbn [Zdigits2] in Hn. lia.
  - rewrite shr_record_of_loc_m. split; [ assumption | lia ].
Qed.

Lemma round_nearest_even_ge m l : m <= round_nearest_even m l.
Proof.
  destruct l as [|[]]; cbn; try lia. destruct (Z.even m); lia.
Qed.

Lemma binary_round_aux_nonneg m e l :
  0 <= m -> sf_nonneg (binary_round_aux prec emax false m e l) = true.
Proof.
  intros Hm. unfold binary_round_aux.
  pose proof (shr_fexp_nonneg m e l Hm) as H1.
  destruct (shr_fexp prec emax m e l) as [mrs' e']. cbn [fst] in H1.
  pose proof (round_nearest_even_ge (shr_m mrs') (loc_of_shr_record mrs')) as Hr.
  set (m1 := round_nearest_even (shr_m mrs') (loc_of_shr_record mrs')) in *.
  assert (Hm1 : 0 <= m1) by lia.
  pose proof (shr_fexp_nonneg m1 e' loc_Exact Hm1) as H2.
  destruct (shr_fexp prec emax m1 e' loc_Exact) as [mrs'' e'']. cbn [fst] in H2.
  destruct (shr_m mrs''); try lia; try reflexivity.
  destruct (e'' <=? emax - prec); reflexivity.
Qed.

Lemma binary_round_aux_lower p e :
  SpecFloat.emin prec emax <= Zpos (digits2_pos p) + e - prec ->
  sf_at_least (Zpos (digits2_pos p) + e - prec)
              (binary_round_aux prec emax false (Zpos p) e loc_Exact) = true.
Proof.
  intros Hnormal. unfold binary_round_aux.
  assert (H1 : 0 < shr_m (fst (shr_fexp prec emax (Zpos p) e loc_Exact)) /\
               snd (shr_fexp prec emax (Zpos p) e loc_Exact)
               = Z.max e (fexp prec emax (Zdigits2 (Zpos p) + e))).
  { apply shr_fexp_positive; [ lia | ].
    cbn [Zdigits2]. unfold fexp, SpecFloat.emin, prec, emax in *. lia. }
  destruct (shr_fexp prec emax (Zpos p) e loc_Exact) as [mrs' e'].
  cbn [fst snd Zdigits2] in H1. destruct H1 as [Hpos1 He'].
  pose proof (round_nearest_even_ge (shr_m mrs') (loc_of_shr_record mrs')) as Hr.
  set (m1 := round_nearest_even (shr_m mrs') (loc_of_shr_record mrs')) in *.
  assert (Hm1 : 0 < m1) by lia.
  assert (H2 : 0 < shr_m (fst (shr_fexp prec emax m1 e' loc_Exact)) /\
               snd (shr_fexp prec emax m1 e' loc_Exact)
               = Z.max e' (fexp prec emax (Zdigits2 m1 + e'))).
  { apply shr_fexp_positive; [ assumption | ].
    destruct m1 as [|q|q]; try lia. cbn [Zdigits2].
    unfold fexp, SpecFloat.emin, prec, emax in *. lia. }
  destruct (shr_fexp prec emax m1 e' loc_Exact) as [mrs'' e''].
  cbn [fst snd] in H2. destruct H2 as [Hpos2 He''].
  destruct (shr_m mrs'') as [|m|m]; try lia.
  destruct (e'' <=? emax - prec); cbn [sf_at_least]; [ | reflexivity ].
  apply Z.leb_le. unfold fexp, SpecFloat.emin, prec, emax in *. lia.
Qed.

Lemma shl_align_digits p e e' :
  Zpos (digits2_pos (fst (shl_align p e e'))) + snd (shl_align p e e')
  = Zpos (digits2_pos p) + e.
Proof.
  unfold shl_align. destruct (e' - e) as [|d|d] eqn:Ed; cbn [fst snd]; try reflexivity.
  rewrite digits2_pos_shift. lia.
Qed.

Lemma binary_round_nonneg p e : sf_nonneg (binary_round prec emax false p e) = true.
Proof.
  unfold binary_round. destruct (shl_align _ _ _) as [mz ez].
  apply binary_round_aux_nonneg. lia.
Qed.

Lemma binary_round_lower p e :
  SpecFloat.emin prec emax <= Zpos (digits2_pos p) + e - prec ->
  sf_at_least (Zpos (digits2_pos p) + e - prec) (binary_round prec emax false p e) = true.
Proof.
  intros Hnormal. unfold binary_round.
  pose proof (shl_align_digits p e (fexp prec emax (Zpos (digits2_pos p) + e))) as Hd.
  destruct (shl_align _ _ _) as [mz ez]. cbn [fst snd] in Hd.
  rewrite <- Hd. apply binary_round_aux_lower. lia.
Qed.

Lemma sf_at_least_weaken k k' x :
  k' <= k -> sf_at_least k x = true -> sf_at_least k' x = true.
Proof.
  intros Hk. destruct x as [| [] | | [] m e]; cbn; try congruence.
  rewrite !Z.leb_le. lia.
Qed.

Lemma sf_at_least_nonneg k x : sf_at_least k x = true -> sf_nonneg x = true.
Proof. destruct x as [| [] | | [] m e]; cbn; congruence. Qed.

Lemma SFmul_nonneg x mc ec :
  sf_nonneg x = true ->
  sf_nonneg (SFmul prec emax x (S754_finite false mc ec)) = true.
Proof.
  destruct x as [s|[]| |[] m e]; cbn [sf_nonneg SFmul negb xorb]; try congruence;
    intros _; try reflexivity.
  apply binary_round_aux_nonneg. lia.
Qed.

Lemma SFmul_lower mx ex mc ec :
  SpecFloat.emin prec emax <= Zpos (digits2_pos mx) + Zpos (digits2_pos mc) - 1 + (ex + ec) - prec ->
  sf_at_least (Zpos (digits2_pos mx) + Zpos (digits2_pos mc) - 1 + (ex + ec) - prec)
              (SFmul prec emax (S754_finite false mx ex) (S754_finite false mc ec)) = true.
Proof.
  intros Hnormal. cbn [SFmul xorb].
  pose proof (digits2_pos_mul mx mc) as Hd.
  eapply sf_at_least_weaken; [ | apply binary_round_aux_lower ]; lia.
Qed.

Lemma SFadd_nonneg x y :
  sf_nonneg x = true -> sf_nonneg y = true -> sf_nonneg (SFadd prec emax x y) = true.
Proof.
  destruct x as [sx|[]| |[] mx ex]; destruct y as [sy|[]| |[] my ey];
    cbn [sf_nonneg SFadd negb Bool.eqb cond_Zopp]; try congruence; intros _ _;
    try reflexivity.
  - destruct sx, sy; reflexivity.
  - unfold binary_normalize.
    destruct (_ + _) eqn:E; try reflexivity; [ apply binary_round_nonneg | lia ].
Qed.

Lemma SFadd_lower_l mx ex my ey :
  SpecFloat.emin prec emax <= Zpos (digits2_pos mx) + ex - prec ->
  sf_at_least (Zpos (digits2_pos mx) + ex - prec)
              (SFadd prec emax (S754_finite false mx ex) (S754_finite false my ey)) = true.
Proof.
  intros Hnormal. cbn [SFadd cond_Zopp].
  pose proof (shl_align_digits mx ex (Z.min ex ey)) as Hd.
  assert (Hs : snd (shl_align mx ex (Z.min ex ey)) = Z.min ex ey).
  { unfold shl_align. destruct (Z.min ex ey - ex) eqn:E; cbn [snd]; lia. }
  set (ax := fst (shl_align mx ex (Z.min ex ey))) in *.
  set (ay := fst (shl_align my ey (Z.min ex ey))) in *.
  change (Zpos ax + Zpos ay) with (Zpos (ax + ay)). cbn [binary_normalize].
  assert (Hm : Zpos (digits2_pos ax) <= Zpos (digits2_pos (ax + ay)))
    by (apply digits2_pos_mono; lia).
  eapply sf_at_least_weaken; [ | apply binary_round_lower ]; lia.
Qed.

Lemma SFadd_lower_r mx ex my ey :
  SpecFloat.emin prec emax <= Zpos (digits2_pos my) + ey - prec ->
  sf_at_least (Zpos (digits2_pos my) + ey - prec)
              (SFadd prec emax (S754_finite false mx ex) (S754_finite false my ey)) = true.
Proof.
  intros Hnormal. cbn [SFadd cond_Zopp].
  pose proof (shl_align_digits my ey (Z.min ex ey)) as Hd.
  assert (Hs : snd (shl_align my ey (Z.min ex ey)) = Z.min ex ey).
  { unfold shl_align. destruct (Z.min ex ey - ey) eqn:E; cbn [snd]; lia. }
  set (ax := fst (shl_align mx ex (Z.min ex ey))) in *.
  set (ay := fst (shl_align my ey (Z.min ex ey))) in *.
  change (Zpos ax + Zpos ay) with (Zpos (ax + ay)). cbn [binary_normalize].
  assert (Hm : Zpos (digits2_pos ay) <= Zpos (digits2_pos (ax + ay)))
    by (apply digits2_pos_mono; lia).
  eapply sf_at_least_weaken; [ | apply binary_round_lower ]; lia.
Qed.

Lemma SFcompare_antisym x y :
  SFcompare y x = option_map CompOpp (SFcompare x y).
Proof.
  destruct x as [[]|[]| |[] mx ex]; destruct y as [[]|[]| |[] my ey];
    cbn [SFcompare option_map CompOpp]; try reflexivity.
  - rewrite (Z.compare_antisym ex ey). destruct (ex ?= ey); cbn [CompOpp]; try reflexivity.
    rewrite (Pos.compare_cont_antisym mx my Eq). reflexivity.
  - rewrite (Z.compare_antisym ex ey). destruct (ex ?= ey); cbn [CompOpp]; try reflexivity.
    rewrite (Pos.compare_cont_antisym mx my Eq). reflexivity.
Qed.

Lemma SFcompare_nonneg_some x y :
  x <> S754_nan -> y <> S754_nan -> exists c, SFcompare x y = Some c.
Proof.
  destruct x, y; cbn [SFcompare]; try congruence; eauto.
Qed.

Lemma SFcompare_refl x : x <> S754_nan -> SFcompare x x = Some Eq.
Proof.
  destruct x as [s|[]| |[] m e]; cbn [SFcompare]; try congruence; intros _;
    rewrite Z.compare_refl, Pos.compare_cont_refl; reflexivity.
Qed.

Lemma sf_nonneg_not_nan x : sf_nonneg x = true -> x <> S754_nan.
Proof. destruct x; cbn; congruence. Qed.


Lemma valid_digits x s m e :
  Prim2SF x = S754_finite s m e -> SpecFloat.emin prec emax < e ->
  Zpos (digits2_pos m) = prec.
Proof.
  intros Hx He. pose proof (Prim2SF_valid x) as Hv. rewrite Hx in Hv.
  cbn [valid_binary] in Hv. unfold bounded, canonical_mantissa in Hv.
  apply andb_prop in Hv as [Hc _]. apply Z.eqb_eq in Hc.
  unfold fexp, SpecFloat.emin, prec, emax in *. lia.
Qed.

Lemma at_least_nonneg k x : at_least k x = true -> nonneg x = true.
Proof. apply sf_at_least_nonneg. Qed.

Lemma at_least_weaken k k' x : k' <= k -> at_least k x = true -> at_least k' x = true.
Proof. apply sf_at_least_weaken. Qed.

Lemma nonneg_of_uint63 n : nonneg (of_uint63 n) = true.
Proof.
  unfold nonneg. rewrite of_uint63_spec. pose proof (Uint63.to_Z_bounded n) as Hn.
  unfold binary_normalize. destruct (Uint63.to_Z n); [ reflexivity | | lia ].
  apply binary_round_nonneg.
Qed.

Lemma at_least_of_uint63 n j :
  0 <= j -> 2 ^ j <= Uint63.to_Z n -> at_least (j - 52) (of_uint63 n) = true.
Proof.
  intros Hj Hn. unfold at_least. rewrite of_uint63_spec.
  assert (0 < 2 ^ j) by (apply Z.pow_pos_nonneg; lia).
  destruct (Uint63.to_Z n) as [|p|p]; try lia. cbn [binary_normalize].
  assert (Hd : j + 1 <= Zpos (digits2_pos p))
    by (apply digits2_pos_ge; replace (j + 1 - 1) with j by lia; assumption).
  eapply sf_at_least_weaken; [ | apply binary_round_lower ];
    unfold SpecFloat.emin, prec, emax; lia.
Qed.

Lemma nonneg_mul x c mc ec :
  Prim2SF c = S754_finite false mc ec -> nonneg x = true -> nonneg (x * c) = true.
Proof.
  intros Hc Hx. unfold nonneg in *. rewrite mul_spec, Hc. apply SFmul_nonneg. assumption.
Qed.

Lemma nonneg_add x y : nonneg x = true -> nonneg y = true -> nonneg (x + y) = true.
Proof.
  intros Hx Hy. unfold nonneg in *. rewrite add_spec. apply SFadd_nonneg; assumption.
Qed.

Lemma at_least_mul x c k mc ec :
  Prim2SF c = S754_finite false mc ec -> Zpos (digits2_pos mc) = prec ->
  SpecFloat.emin prec emax < k -> SpecFloat.emin prec emax <= k + ec + 52 ->
  at_least k x = true -> at_least (k + ec + 52) (x * c) = true.
Proof.
  intros Hc Hdc Hk Hkc Hx. unfold at_least in *. rewrite mul_spec, Hc.
  destruct (Prim2SF x) as [s|[]| |[] mx ex] eqn:Ex; cbn [sf_at_least] in Hx; try discriminate.
  - reflexivity.
  - apply Z.leb_le in Hx.
    assert (Hdx : Zpos (digits2_pos mx) = prec) by (apply (valid_digits x false mx ex Ex); lia).
    eapply sf_at_least_weaken; [ | apply SFmul_lower ];
      rewrite Hdx, Hdc; unfold SpecFloat.emin, prec, emax in *; lia.
Qed.

Lemma at_least_add_l x y k :
  SpecFloat.emin prec emax < k ->
  at_least k x = true -> nonneg y = true -> at_least k (x + y) = true.
Proof.
  intros Hk Hx Hy. unfold at_least, nonneg in *. rewrite add_spec.
  destruct (Prim2SF x) as [s|[]| |[] mx ex] eqn:Ex; cbn [sf_at_least] in Hx; try discriminate.
  - destruct (Prim2SF y) as [sy|[]| |[] my ey]; cbn [sf_nonneg negb] in Hy;
      try discriminate; reflexivity.
  - apply Z.leb_le in Hx.
    assert (Hdx : Zpos (digits2_pos mx) = prec) by (apply (valid_digits x false mx ex Ex); lia).
    destruct (Prim2SF y) as [sy|[]| |[] my ey]; cbn [sf_nonneg negb] in Hy; try discriminate.
    + cbn [SFadd sf_at_least]. apply Z.leb_le. assumption.
    + reflexivity.
    + eapply sf_at_least_weaken; [ | apply SFadd_lower_l ];
        rewrite Hdx; unfold SpecFloat.emin, prec, emax in *; lia.
Qed.

Lemma at_least_add_r x y k :
  SpecFloat.emin prec emax < k ->
  nonneg x = true -> at_least k y = true -> at_least k (x + y) = true.
Proof.
  intros Hk Hx Hy. unfold at_least, nonneg in *. rewrite add_spec.
  destruct (Prim2SF y) as [s|[]| |[] my ey] eqn:Ey; cbn [sf_at_least] in Hy; try discriminate.
  - destruct (Prim2SF x) as [sx|[]| |[] mx ex]; cbn [sf_nonneg negb] in Hx;
      try discriminate; reflexivity.
  - apply Z.leb_le in Hy.
    assert (Hdy : Zpos (digits2_pos my) = prec) by (apply (valid_digits y false my ey Ey); lia).
    destruct (Prim2SF x) as [sx|[]| |[] mx ex]; cbn [sf_nonneg negb] in Hx; try discriminate.
    + cbn [SFadd sf_at_least]. apply Z.leb_le. assumption.
    + reflexivity.
    + eapply sf_at_least_weaken; [ | apply SFadd_lower_r ];
        rewrite Hdy; unfold SpecFloat.emin, prec, emax in *; lia.
Qed.

Lemma at_least_leb t x k mt et :
  Prim2SF t = S754_finite false mt et -> et < k ->
  at_least k x = true -> (t <=? x)%float = true.
Proof.
  intros Ht Hk Hx. unfold at_least in Hx. rewrite leb_spec, Ht.
  destruct (Prim2SF x) as [s|[]| |[] mx ex]; cbn [sf_at_least] in Hx; try discriminate.
  - reflexivity.
  - apply Z.leb_le in Hx. unfold SFleb, SFcompare.
    assert (E : (et ?= ex) = Lt) by (apply Z.compare_lt_iff; lia).
    rewrite E. reflexivity.
Qed.

Lemma ltb_negb_leb x y :
  nonneg x = true -> nonneg y = true -> (x <? y)%float = negb (y <=? x)%float.
Proof.
  intros Hx Hy. rewrite ltb_spec, leb_spec. unfold SFltb, SFleb, nonneg in *.
  rewrite (SFcompare_antisym (Prim2SF x) (Prim2SF y)).
  destruct (SFcompare_nonneg_some (Prim2SF x) (Prim2SF y)) as [c Hc];
    try (apply sf_nonneg_not_nan; assumption).
  rewrite Hc. destruct c; reflexivity.
Qed.

Lemma nonneg_not_nan x : nonneg x = true -> PrimFloat.is_nan x = false.
Proof.
  intros Hx. unfold PrimFloat.is_nan. rewrite eqb_spec. unfold SFeqb.
  rewrite SFcompare_refl by (apply sf_nonneg_not_nan; assumption). reflexivity.
Qed.

Lemma nonneg_zero_leb x : nonneg x = true -> (0 <=? x)%float = true.
Proof.
  intros Hx. rewrite leb_spec. unfold nonneg in Hx.
  change (Prim2SF 0) with (S754_zero false).
  destruct (Prim2SF x) as [s|[]| |[] mx ex]; cbn in Hx |- *; congruence.
Qed.

Lemma leb_lower_threshold t u s mt et mu eu :
  Prim2SF t = S754_finite false mt et -> Prim2SF u = S754_finite false mu eu ->
  et < eu -> (u <=? s)%float = true -> (t <=? s)%float = true.
Proof.
  intros Ht Hu Hlt. rewrite !leb_spec, Ht, Hu. unfold SFleb, SFcompare.
  destruct (Prim2SF s) as [sz|[]| |[] ms es]; try congruence.
  destruct (Z.compare_spec eu es), (Z.compare_spec et es); try congruence; lia.
Qed.

End Binary64.

Import Binary64.

(** ** The score and its four levels *)

Lemma float_of_count_nonneg n : nonneg (float_of_count n) = true.
Proof. apply nonneg_of_uint63. Qed.

Lemma float_of_count_at_least n j :
  0 <= j -> 2 ^ j <= Z.of_nat n < 2 ^ 63 ->
  at_least (j - 52) (float_of_count n) = true.
Proof.
  intros Hj Hn. apply at_least_of_uint63; [ assumption | ].
  rewrite Uint63.of_Z_spec, Z.mod_small; [ lia | ].
  assert (0 < 2 ^ j) by (apply Z.pow_pos_nonneg; lia).
  change Uint63.wB with (2 ^ 63). lia.
Qed.

Lemma risk_score_value_nonneg c r f : nonneg (risk_score_value c r f) = true.
Proof.
  unfold risk_score_value.
  repeat apply nonneg_add;
    (eapply nonneg_mul; [ vm_compute; reflexivity | apply float_of_count_nonneg ]).
Qed.

Lemma risk_score_value_at_least c r f j :
  0 <= j -> 2 ^ j <= Z.of_nat r < 2 ^ 63 ->
  at_least (j - 54) (risk_score_value c r f) = true.
Proof.
  intros Hj Hr. unfold risk_score_value.
  apply at_least_add_l.
  { unfold SpecFloat.emin, FloatOps.prec, FloatOps.emax. lia. }
  2:{ eapply nonneg_mul; [ vm_compute; reflexivity | apply float_of_count_nonneg ]. }
  apply at_least_add_r.
  { unfold SpecFloat.emin, FloatOps.prec, FloatOps.emax. lia. }
  { eapply nonneg_mul; [ vm_compute; reflexivity | apply float_of_count_nonneg ]. }
  replace (j - 54) with ((j - 52) + (-54) + 52) by lia.
  apply (at_least_mul _ 0.3%float _ 5404319552844595 (-54)).
  - vm_compute. reflexivity.
  - vm_compute. reflexivity.
  - unfold SpecFloat.emin, FloatOps.prec, FloatOps.emax. lia.
  - unfold SpecFloat.emin, FloatOps.prec, FloatOps.emax. lia.
  - apply float_of_count_at_least; assumption.
Qed.

Lemma risk_level_intervals s :
  nonneg s = true ->
  (risk_level s = "Low" <-> (s <? 3)%float = true) /\
  (risk_level s = "Moderate" <-> (3 <=? s)%float = true /\ (s <? 6)%float = true) /\
  (risk_level s = "High" <-> (6 <=? s)%float = true /\ (s <? 9)%float = true) /\
  (risk_level s = "Critical ðŸš¨" <-> (9 <=? s)%float = true).
Proof.
  intros Hs.
  assert (H3 : (s <? 3)%float = negb (3 <=? s)%float)
    by (apply ltb_negb_leb; [ assumption | vm_compute; reflexivity ]).
  assert (H6 : (s <? 6)%float = negb (6 <=? s)%float)
    by (apply ltb_negb_leb; [ assumption | vm_compute; reflexivity ]).
  assert (H9 : (s <? 9)%float = negb (9 <=? s)%float)
    by (apply ltb_negb_leb; [ assumption | vm_compute; reflexivity ]).
  assert (T63 : (6 <=? s)%float = true -> (3 <=? s)%float = true).
  { apply (leb_lower_threshold 3 6 s 6755399441055744 (-51) 6755399441055744 (-50));
      [ vm_compute; reflexivity | vm_compute; reflexivity | lia ]. }
  assert (T96 : (9 <=? s)%float = true -> (6 <=? s)%float = true).
  { apply (leb_lower_threshold 6 9 s 6755399441055744 (-50) 5066549580791808 (-49));
      [ vm_compute; reflexivity | vm_compute; reflexivity | lia ]. }
  unfold risk_level. rewrite H3, H6, H9.
  destruct (3 <=? s)%float, (6 <=? s)%float, (9 <=? s)%float; cbn [negb];
    try (specialize (T63 eq_refl)); try (specialize (T96 eq_refl)); try discriminate;
    repeat split; intros; try discriminate; try reflexivity;
    match goal with H : _ /\ _ |- _ => destruct H; discriminate end.
Qed.

Lemma exact_score_tenths c r f :
  (exact_score c r f ==
   inject_Z (4 * Z.of_nat c + 3 * Z.of_nat r + 3 * Z.of_nat f) / 10)%Q.
Proof.
  unfold exact_score.
  rewrite !inject_Z_plus, !inject_Z_mult. field.
Qed.

Lemma exact_score_nonneg c r f : (0 <= exact_score c r f)%Q.
Proof.
  rewrite exact_score_tenths.
  apply Qle_shift_div_l; [ reflexivity | ].
  rewrite Qmult_0_l. rewrite <- (Zle_Qle 0). lia.
Qed.

Lemma exact_level_intervals (s : Q) :
  (exact_level s = "Low" <-> s < 3)%Q /\
  (exact_level s = "Moderate" <-> 3 <= s /\ s < 6)%Q /\
  (exact_level s = "High" <-> 6 <= s /\ s < 9)%Q /\
  (exact_level s = "Critical ðŸš¨" <-> 9 <= s)%Q.
Proof.
  unfold exact_level.
  destruct (Qlt_le_dec s 3) as [H3 | H3];
    [ | destruct (Qlt_le_dec s 6) as [H6 | H6];
        [ | destruct (Qlt_le_dec s 9) as [H9 | H9] ] ];
    repeat split; intros; try discriminate; try lra.
Qed.

(** From 64 recent reports on, the score is at least 16. *)
Lemma risk_score_value_critical_from c r f :
  64 <= Z.of_nat r < 2 ^ 63 -> (9 <=? risk_score_value c r f)%float = true.
Proof.
  intros Hr.
  apply (at_least_leb 9 _ (-48) 5066549580791808 (-49));
    [ vm_compute; reflexivity | lia | ].
  apply (risk_score_value_at_least c r f 6); [ lia | ].
  change (2 ^ 6) with 64. lia.
Qed.

(** The binary64 score of the code selects the level that the exact score
    selects, whatever the counts of an upload are. *)
Lemma risk_level_agrees_with_exact c r :
  (c <= r)%nat -> Z.of_nat r < 2 ^ 63 ->
  risk_level (risk_score_value c r (anomaly_flag_of c))
  = exact_level (exact_score c r (anomaly_flag_of c)).
Proof.
  intros Hc Hr. destruct (le_lt_dec r 100) as [Hsmall | Hbig].
  - assert (Hall : levels_agree_upto 100 = true) by (vm_compute; reflexivity).
    unfold levels_agree_upto in Hall.
    rewrite forallb_forall in Hall.
    specialize (Hall r). rewrite forallb_forall in Hall.
    apply String.eqb_eq. apply Hall; apply in_seq; lia.
  - transitivity "Critical ðŸš¨".
    + apply (risk_level_intervals _ (risk_score_value_nonneg _ _ _)).
      apply risk_score_value_critical_from. lia.
    + symmetry. apply exact_level_intervals.
      rewrite exact_score_tenths.
      apply Qle_shift_div_l; [ reflexivity | ].
      assert (E : (9 * 10 == inject_Z 90)%Q) by reflexivity.
      rewrite E, <- Zle_Qle. lia.
Qed.

(** With two reports near among the week's reports and the flag set, the
    score is at least the float 1.7. *)
Lemma anomaly_score_at_least c r :
  (2 <= c <= r)%nat -> Z.of_nat r < 2 ^ 63 ->
  (1.7 <=? risk_score_value c r 1)%float = true.
Proof.
  intros Hc Hr. destruct (le_lt_dec r 16) as [Hsmall | Hbig].
  - assert (Hall : anomaly_scores_upto 16 = true) by (vm_compute; reflexivity).
    unfold anomaly_scores_upto in Hall.
    rewrite forallb_forall in Hall.
    specialize (Hall r). rewrite forallb_forall in Hall.
    apply Hall; apply in_seq; lia.
  - apply (at_least_leb 1.7 _ (-51) 7656119366529843 (-52));
      [ vm_compute; reflexivity | lia | ].
    replace (-51) with (3 - 54) by lia.
    apply risk_score_value_at_least; [ lia | ].
    change (2 ^ 3) with 8. lia.
Qed.

(** ** Which tables each step touches *)

Lemma saved_reports clk req result confidence risk db :
  exists row,
    rows (db_reports (saved clk req result confidence risk db))
      = (rows (db_reports db) ++ [row])%list /\
    reports.risk row = risk /\
    reports.prediction row = result /\
    reports.created_at row = now_report clk /\
    reports.latitude row = bind_real (form_latitude req) /\
    reports.longitude row = bind_real (form_longitude req).
Proof.
  eexists. cbn. repeat split; reflexivity.
Qed.

Lemma saved_others clk req result confidence risk db :
  db_alerts (saved clk req result confidence risk db) = db_alerts db /\
  db_anomalies (saved clk req result confidence risk db) = db_anomalies db.
Proof. split; reflexivity. Qed.

Lemma after_alert_others clk req risk result db :
  db_reports (after_alert clk req risk result db) = db_reports db /\
  db_anomalies (after_alert clk req risk result db) = db_anomalies db.
Proof.
  unfold after_alert. destruct (py_in risk _); split; reflexivity.
Qed.

Lemma after_anomaly_others req c db :
  db_reports (after_anomaly req c db) = db_reports db /\
  db_alerts (after_anomaly req c db) = db_alerts db.
Proof.
  unfold after_anomaly. destruct (2 <=? c)%nat; split; reflexivity.
Qed.

Lemma py_in_high_critical risk :
  py_in risk ["High"; "Critical ðŸš¨"] = true <->
  risk = "High" \/ risk = "Critical ðŸš¨".
Proof.
  unfold py_in. cbn [existsb]. rewrite orb_false_r, orb_true_iff.
  rewrite !String.eqb_eq. reflexivity.
Qed.

Lemma default_risk_no_alert result :
  py_in (default_risk result) ["High"; "Critical ðŸš¨"] = false.
Proof.
  unfold default_risk.
  destruct (result =? "Unknown Species")%string; [ reflexivity | ].
  destruct (py_in result invasive_species); reflexivity.
Qed.

Section Assessment.

Context {math : Math}.
Variable model_predict : string -> nat * float.

(** The loop adds to its counter the rows whose distance is at most 20. *)
Lemma count_cluster_counts latitude longitude window n c :
  count_cluster latitude longitude window n = Returned c ->
  c = (n + List.length (filter (within_radius latitude longitude) window))%nat.
Proof.
  revert n. induction window as [ | report rest IH ]; intros n H.
  - cbn in H. injection H as <-. cbn. lia.
  - cbn [count_cluster] in H. cbn [filter]. unfold within_radius at 1.
    destruct (py_float (fst (fst report))) as [lat | e]; [ | discriminate ].
    destruct (py_float (snd (fst report))) as [lon | e]; [ | discriminate ].
    cbn [bind outcome_Monad] in H |- *.
    destruct (calculate_distance latitude longitude lat lon) as [dist | e];
      [ | discriminate ].
    apply IH in H.
    destruct (dist <=? 20)%float; cbn [List.length]; lia.
Qed.

(** C1.  When an upload's species is invasive, the score is
    clusterCount * 0.4 + recentCount * 0.3 + anomalyFlag * 0.3 over the
    counts taken from the trailing week, evaluated on binary64 floats; it is
    a number and not negative, and the risk shown and stored is Low when it
    is below 3, Moderate from 3 to below 6, High from 6 to below 9 and
    Critical from 9 on.  The levels are those of the exact value of the
    formula: rounding moves no score across a threshold, for any number of
    recent reports that a Python list holds (fewer than 2^63). *)
Theorem upload_scores_invasive_report clk req db resp db' :
  upload model_predict clk req db = (Returned resp, db') ->
  py_in (page_prediction resp) invasive_species = true ->
  let window := select_recent_invasive (now_select clk) db in
  exists clusterCount new_row,
    count_cluster (form_latitude req) (form_longitude req) window 0
      = Returned clusterCount /\
    let recentCount := List.length window in
    let anomalyFlag := anomaly_flag_of clusterCount in
    let score := (float_of_count clusterCount * 0.4
                  + float_of_count recentCount * 0.3
                  + float_of_count anomalyFlag * 0.3)%float in
    let exact := (inject_Z (Z.of_nat clusterCount) * (4 # 10)
                  + inject_Z (Z.of_nat recentCount) * (3 # 10)
                  + inject_Z (Z.of_nat anomalyFlag) * (3 # 10))%Q in
    PrimFloat.is_nan score = false /\
    (0 <=? score)%float = true /\
    rows (db_reports db') = (rows (db_reports db) ++ [new_row])%list /\
    reports.risk new_row = page_risk resp /\
    (page_risk resp = "Low" <-> (score <? 3)%float = true) /\
    (page_risk resp = "Moderate"
     <-> (3 <=? score)%float = true /\ (score <? 6)%float = true) /\
    (page_risk resp = "High"
     <-> (6 <=? score)%float = true /\ (score <? 9)%float = true) /\
    (page_risk resp = "Critical ðŸš¨" <-> (9 <=? score)%float = true) /\
    (Z.of_nat recentCount < 2 ^ 63 ->
     (page_risk resp = "Low" <-> exact < 3)%Q /\
     (page_risk resp = "Moderate" <-> 3 <= exact /\ exact < 6)%Q /\
     (page_risk resp = "High" <-> 6 <= exact /\ exact < 9)%Q /\
     (page_risk resp = "Critical ðŸš¨" <-> 9 <= exact)%Q).
Proof.
  intros Hup Hinv window.
  destruct (upload_returned_inv _ _ _ _ _ _ Hup)
    as (result & confidence & _ & [(_ & c & Hc & -> & ->) | (Hno & -> & _)]).
  - destruct (saved_reports clk req result confidence
                (scored_risk c (List.length window))
                (after_alert clk req (scored_risk c (List.length window)) result
                   (after_anomaly req c db)))
      as (row & Hrows & Hrisk & _).
    rewrite (proj1 (after_alert_others _ _ _ _ _)) in Hrows.
    rewrite (proj1 (after_anomaly_others _ _ _)) in Hrows.
    exists c, row. split; [ exact Hc | ].
    cbv zeta. cbn [page_risk page]. unfold scored_risk.
    pose proof (risk_score_value_nonneg c (List.length window) (anomaly_flag_of c))
      as Hnonneg.
    destruct (risk_level_intervals _ Hnonneg) as (Hlow & Hmod & Hhigh & Hcrit).
    split; [ apply nonneg_not_nan; exact Hnonneg | ].
    split; [ apply nonneg_zero_leb; exact Hnonneg | ].
    split; [ exact Hrows | ].
    split; [ exact Hrisk | ].
    split; [ exact Hlow | ].
    split; [ exact Hmod | ].
    split; [ exact Hhigh | ].
    split; [ exact Hcrit | ].
    intros Hlen.
    assert (Hle : (c <= List.length window)%nat).
    { rewrite (count_cluster_counts _ _ _ _ _ Hc). cbn [Nat.add].
      apply filter_length_le. }
    subst window.
    rewrite (risk_level_agrees_with_exact c _ Hle Hlen).
    apply (exact_level_intervals (exact_score c _ (anomaly_flag_of c))).
  - cbn [page_prediction page] in Hinv. congruence.
Qed.

(** C2.  An upload that returns creates an anomaly row, and scores with
    anomalyFlag 1, exactly when its species is invasive and the cluster
    count is at least 2; the row carries the new report's own coordinate,
    radius 20000 and the fixed description. *)
Theorem upload_anomaly_iff_cluster clk req db resp db' :
  upload model_predict clk req db = (Returned resp, db') ->
  let window := select_recent_invasive (now_select clk) db in
  let counted := count_cluster (form_latitude req) (form_longitude req) window 0 in
  (db_anomalies db' = db_anomalies db /\
   (py_in (page_prediction resp) invasive_species = false \/
    exists c,
      counted = Returned c /\ (c < 2)%nat /\
      page_risk resp = risk_level (risk_score_value c (List.length window) 0)))
  \/
  (py_in (page_prediction resp) invasive_species = true /\
   exists c anomaly new_row,
     counted = Returned c /\ (2 <= c)%nat /\
     page_risk resp = risk_level (risk_score_value c (List.length window) 1) /\
     rows (db_anomalies db') = (rows (db_anomalies db) ++ [anomaly])%list /\
     rows (db_reports db') = (rows (db_reports db) ++ [new_row])%list /\
     anomalies.latitude anomaly = bind_real (form_latitude req) /\
     anomalies.longitude anomaly = bind_real (form_longitude req) /\
     anomalies.latitude anomaly = reports.latitude new_row /\
     anomalies.longitude anomaly = reports.longitude new_row /\
     anomalies.radius anomaly = Some 20000%float /\
     anomalies.description anomaly
       = "Vegetation Stress Detected via Satellite Correlation").
Proof.
  intros Hup window counted.
  destruct (upload_returned_inv _ _ _ _ _ _ Hup)
    as (result & confidence & _ & [(Hinv & c & Hc & -> & ->) | (Hno & -> & ->)]).
  - fold window in Hc. fold counted in Hc.
    set (risk := scored_risk c (List.length window)).
    destruct (saved_reports clk req result confidence risk
                (after_alert clk req risk result (after_anomaly req c db)))
      as (row & Hrows & _ & _ & _ & Hlat & Hlon).
    rewrite (proj1 (after_alert_others _ _ _ _ _)) in Hrows.
    rewrite (proj1 (after_anomaly_others _ _ _)) in Hrows.
    rewrite (proj2 (saved_others _ _ _ _ _ _)).
    rewrite (proj2 (after_alert_others _ _ _ _ _)).
    cbn [page_prediction page_risk page].
    subst risk. unfold scored_risk, after_anomaly, anomaly_flag_of in *.
    revert Hrows.
    destruct (Nat.leb_spec 2 c) as [Hge | Hlt]; intros Hrows.
    + right. split; [ exact Hinv | ].
      eexists c, _, row.
      split; [ exact Hc | ]. split; [ exact Hge | ].
      split; [ reflexivity | ].
      split; [ cbn; reflexivity | ].
      split; [ exact Hrows | ].
      cbn. rewrite Hlat, Hlon. repeat split; reflexivity.
    + left. split; [ reflexivity | ].
      right. exists c. repeat split; [ exact Hc | exact Hlt ].
  - left. rewrite (proj2 (saved_others _ _ _ _ _ _)).
    split; [ reflexivity | left; exact Hno ].
Qed.

(** C3.  An upload that returns creates one alert row exactly when the risk
    it stores is High or Critical; the row's severity is that risk, its
    status is Active and its species is the detected label. *)
Theorem upload_alert_iff_high_or_critical clk req db resp db' :
  upload model_predict clk req db = (Returned resp, db') ->
  exists new_row,
    rows (db_reports db') = (rows (db_reports db) ++ [new_row])%list /\
    reports.risk new_row = page_risk resp /\
    reports.prediction new_row = page_prediction resp /\
    (((page_risk resp = "High" \/ page_risk resp = "Critical ðŸš¨") /\
      exists alert,
        rows (db_alerts db') = (rows (db_alerts db) ++ [alert])%list /\
        alerts.severity alert = page_risk resp /\
        alerts.status alert = "Active" /\
        alerts.species alert = page_prediction resp)
     \/
     (page_risk resp <> "High" /\ page_risk resp <> "Critical ðŸš¨" /\
      db_alerts db' = db_alerts db)).
Proof.
  intros Hup.
  assert (Hcases : forall result confidence risk db0,
    db_reports db0 = db_reports db ->
    db_alerts db0 = db_alerts db ->
    let resp0 := page req result risk in
    let db1 := saved clk req result confidence risk
                 (after_alert clk req risk result db0) in
    exists new_row,
      rows (db_reports db1) = (rows (db_reports db) ++ [new_row])%list /\
      reports.risk new_row = page_risk resp0 /\
      reports.prediction new_row = page_prediction resp0 /\
      (((page_risk resp0 = "High" \/ page_risk resp0 = "Critical ðŸš¨") /\
        exists alert,
          rows (db_alerts db1) = (rows (db_alerts db) ++ [alert])%list /\
          alerts.severity alert = page_risk resp0 /\
          alerts.status alert = "Active" /\
          alerts.species alert = page_prediction resp0)
       \/
       (page_risk resp0 <> "High" /\ page_risk resp0 <> "Critical ðŸš¨" /\
        db_alerts db1 = db_alerts db))).
  { intros result confidence risk db0 Hrep Halerts resp0 db1.
    destruct (saved_reports clk req result confidence risk
                (after_alert clk req risk result db0))
      as (row & Hrows & Hrisk & Hpred & _).
    rewrite (proj1 (after_alert_others _ _ _ _ _)), Hrep in Hrows.
    exists row. subst resp0 db1. cbn [page_risk page_prediction page].
    split; [ exact Hrows | ]. split; [ exact Hrisk | ]. split; [ exact Hpred | ].
    rewrite (proj1 (saved_others _ _ _ _ _ _)).
    unfold after_alert.
    destruct (py_in risk _) eqn:Hin.
    - left. split; [ apply py_in_high_critical; exact Hin | ].
      eexists. cbn. rewrite Halerts. repeat split; reflexivity.
    - right.
      assert (Hnot : ~ (risk = "High" \/ risk = "Critical ðŸš¨")).
      { rewrite <- py_in_high_critical. congruence. }
      repeat split; [ tauto | tauto | exact Halerts ]. }
  destruct (upload_returned_inv _ _ _ _ _ _ Hup)
    as (result & confidence & _ & [(Hinv & c & Hc & -> & ->) | (Hno & -> & ->)]).
  - apply Hcases; apply after_anomaly_others.
  - pose proof (Hcases result confidence (default_risk result) db eq_refl
                  eq_refl) as H.
    cbv zeta in H. unfold after_alert in H.
    rewrite default_risk_no_alert in H. exact H.
Qed.

(** C5.  When the classifier's confidence is below 0.70 the upload is
    classified Unknown Species with the Uncertain risk text whatever class
    the argmax selected; nothing of the [math] module runs, and no anomaly
    or alert row is written. *)
Theorem low_confidence_is_uncertain clk req db :
  let image_path := os_path_join "static" (filename req) in
  let confidence := snd (model_predict image_path) in
  (confidence <? 0.70)%float = true ->
  let db' := insert_report (filename req) (form_latitude req) (form_longitude req)
               (form_address req) "Unknown Species" (now_report clk) confidence
               "Uncertain - Low Confidence Detection" db in
  predict_species model_predict image_path
    = Returned ("Unknown Species", confidence) /\
  (forall other_math : Math,
     upload (math := other_math) model_predict clk req db =
     (Returned {| page_image := filename req;
                  page_prediction := "Unknown Species";
                  page_risk := "Uncertain - Low Confidence Detection";
                  page_latitude := form_latitude req;
                  page_longitude := form_longitude req;
                  page_address := form_address req |},
      db')) /\
  db_anomalies db' = db_anomalies db /\
  db_alerts db' = db_alerts db.
Proof.
  intros image_path confidence Hlow db'.
  assert (Hpred : predict_species model_predict image_path
                  = Returned ("Unknown Species", confidence)).
  { unfold predict_species. fold confidence. rewrite Hlow. reflexivity. }
  split; [ exact Hpred | ].
  split; [ | split; reflexivity ].
  intros other_math.
  rewrite (upload_eq (math := other_math)). fold image_path.
  rewrite Hpred. reflexivity.
Qed.

(** C6.  The loop's test is [dist <= 20]: a candidate at exactly 20.0 km
    is counted, one at 20.0001 km is not. *)
Theorem cluster_boundary_is_inclusive latitude longitude lat lon t rest n dist :
  calculate_distance latitude longitude lat lon = Returned dist ->
  let candidate := (Some lat, Some lon, t) in
  (dist = 20%float ->
   count_cluster latitude longitude (candidate :: rest) n
     = count_cluster latitude longitude rest (S n)) /\
  (dist = 20.0001%float ->
   count_cluster latitude longitude (candidate :: rest) n
     = count_cluster latitude longitude rest n) /\
  count_cluster latitude longitude (candidate :: rest) n
    = count_cluster latitude longitude rest
        (if (dist <=? 20)%float then S n else n).
Proof.
  intros Hdist candidate.
  assert (Hstep : count_cluster latitude longitude (candidate :: rest) n
                  = count_cluster latitude longitude rest
                      (if (dist <=? 20)%float then S n else n)).
  { subst candidate. cbn [count_cluster py_float fst snd bind outcome_Monad].
    rewrite Hdist. reflexivity. }
  repeat split.
  - intros ->. exact Hstep.
  - intros ->. exact Hstep.
  - exact Hstep.
Qed.

(** Inserting a report puts it, when it is invasive and recent, at the end
    of what the window query returns. *)
Lemma select_after_saved now clk req result confidence risk db :
  select_recent_invasive now (saved clk req result confidence risk db)
  = (select_recent_invasive now db
     ++ (if py_in result invasive_species && (now - seven_days <=? now_report clk)
         then [(bind_real (form_latitude req), bind_real (form_longitude req),
                now_report clk)]
         else []))%list.
Proof.
  unfold select_recent_invasive, saved, insert_report, insert.
  cbn [db_reports rows]. rewrite filter_app, map_app. f_equal.
  cbn [filter]. unfold recent_invasive at 1.
  cbn [reports.prediction reports.created_at].
  destruct (py_in result invasive_species && _); reflexivity.
Qed.

(** C7.  The counts of an invasive upload come from the window query run on
    the table as it was before the upload's own row was inserted; the same
    query on the table afterwards returns that row too, when its timestamp
    is within the week. *)
Theorem upload_counts_exclude_new_report clk req db resp db' :
  upload model_predict clk req db = (Returned resp, db') ->
  py_in (page_prediction resp) invasive_species = true ->
  let window := select_recent_invasive (now_select clk) db in
  exists clusterCount new_row,
    count_cluster (form_latitude req) (form_longitude req) window 0
      = Returned clusterCount /\
    clusterCount
      = List.length (filter (within_radius (form_latitude req) (form_longitude req))
                            window) /\
    page_risk resp
      = risk_level (risk_score_value clusterCount (List.length window)
                      (anomaly_flag_of clusterCount)) /\
    rows (db_reports db') = (rows (db_reports db) ++ [new_row])%list /\
    select_recent_invasive (now_select clk) db'
      = (window
         ++ (if now_select clk - seven_days <=? now_report clk
             then [(reports.latitude new_row, reports.longitude new_row,
                    reports.created_at new_row)]
             else []))%list.
Proof.
  intros Hup Hinv window.
  destruct (upload_returned_inv _ _ _ _ _ _ Hup)
    as (result & confidence & _ & [(Hres & c & Hc & -> & ->) | (Hno & -> & _)]).
  - fold window in Hc |- *.
    set (risk := scored_risk c (List.length window)).
    set (db0 := after_alert clk req risk result (after_anomaly req c db)).
    assert (Hrep : db_reports db0 = db_reports db).
    { subst db0. rewrite (proj1 (after_alert_others _ _ _ _ _)).
      apply after_anomaly_others. }
    destruct (saved_reports clk req result confidence risk db0)
      as (row & Hrows & _ & _ & Hat & Hlat & Hlon).
    rewrite Hrep in Hrows.
    exists c, row.
    split; [ exact Hc | ].
    split; [ apply (count_cluster_counts _ _ _ 0%nat _ Hc) | ].
    split; [ reflexivity | ].
    split; [ exact Hrows | ].
    rewrite select_after_saved.
    rewrite Hres, Hat, Hlat, Hlon. cbn [andb].
    unfold select_recent_invasive. rewrite Hrep. reflexivity.
  - cbn [page_prediction page] in Hinv. congruence.
Qed.

(** C10.  The cluster count of an invasive upload is at most its recent
    count; when the anomaly fires the recent count is at least 2 and the
    score is at least 1.7, as the exact value of the formula and as the
    float that the code computes (for a list of recent reports, which holds
    fewer than 2^63 of them). *)
Theorem cluster_count_at_most_recent_count clk req db resp db' :
  upload model_predict clk req db = (Returned resp, db') ->
  py_in (page_prediction resp) invasive_species = true ->
  let window := select_recent_invasive (now_select clk) db in
  exists clusterCount,
    count_cluster (form_latitude req) (form_longitude req) window 0
      = Returned clusterCount /\
    let recentCount := List.length window in
    let score := risk_score_value clusterCount recentCount
                   (anomaly_flag_of clusterCount) in
    page_risk resp = risk_level score /\
    (clusterCount <= recentCount)%nat /\
    ((2 <= clusterCount)%nat ->
     anomaly_flag_of clusterCount = 1%nat /\
     db_anomalies db' <> db_anomalies db /\
     (2 <= recentCount)%nat /\
     (1.7 <= exact_score clusterCount recentCount (anomaly_flag_of clusterCount))%Q /\
     (Z.of_nat recentCount < 2 ^ 63 -> (1.7 <=? score)%float = true)).
Proof.
  intros Hup Hinv window.
  destruct (upload_returned_inv _ _ _ _ _ _ Hup)
    as (result & confidence & _ & [(Hres & c & Hc & -> & ->) | (Hno & -> & _)]).
  - fold window in Hc |- *. exists c. split; [ exact Hc | ].
    cbv zeta. split; [ reflexivity | ].
    assert (Hle : (c <= List.length window)%nat).
    { rewrite (count_cluster_counts _ _ _ _ _ Hc). cbn [Nat.add].
      apply filter_length_le. }
    split; [ exact Hle | ].
    intros H2.
    assert (Hflag : anomaly_flag_of c = 1%nat).
    { unfold anomaly_flag_of. destruct (Nat.leb_spec 2 c); [ reflexivity | lia ]. }
    split; [ exact Hflag | ].
    split.
    + rewrite (proj2 (saved_others _ _ _ _ _ _)).
      rewrite (proj2 (after_alert_others _ _ _ _ _)).
      unfold after_anomaly.
      destruct (Nat.leb_spec 2 c); [ | lia ].
      cbn. intros Heq.
      apply (f_equal autoinc) in Heq. cbn in Heq. lia.
    + split; [ lia | ]. split.
      * rewrite Hflag, exact_score_tenths.
        apply Qle_shift_div_l; [ reflexivity | ].
        assert (E : (1.7 * 10 == inject_Z 17)%Q) by reflexivity.
        rewrite E, <- Zle_Qle. lia.
      * intros Hlen. rewrite Hflag. apply anomaly_score_at_least; [ lia | exact Hlen ].
  - cbn [page_prediction page] in Hinv. congruence.
Qed.

(** An upload changes no row that is already in the reports table. *)
Lemma upload_keeps_rows clk req db :
  exists added,
    rows (db_reports (snd (upload model_predict clk req db)))
    = (rows (db_reports db) ++ added)%list.
Proof.
  destruct (upload model_predict clk req db) as [[resp | e] db'] eqn:Hup.
  - destruct (upload_returned_inv _ _ _ _ _ _ Hup)
      as (result & confidence & _ & [(_ & c & _ & _ & ->) | (_ & _ & ->)]).
    + match goal with |- context [saved ?k ?q ?r ?f ?s ?d] =>
        destruct (saved_reports k q r f s d) as (row & Hrows & _)
      end.
      rewrite (proj1 (after_alert_others _ _ _ _ _)) in Hrows.
      rewrite (proj1 (after_anomaly_others _ _ _)) in Hrows.
      exists [row]. exact Hrows.
    + destruct (saved_reports clk req result confidence (default_risk result) db)
        as (row & Hrows & _).
      exists [row]. exact Hrows.
  - apply upload_raised_inv in Hup. subst db'.
    exists []. cbn [snd]. rewrite app_nil_r. reflexivity.
Qed.

End Assessment.

Section Rejection.

Context {math : Math}.
Variable float_of_text : string -> option float.
Variable file_save : string -> outcome unit.
Variable image_predict : string -> outcome (nat * float).


End Rejection.

(** ** Review *)

Lemma update_verified_frame v report_id db :
  let db' := update_verified v report_id db in
  db_alerts db' = db_alerts db /\
  db_anomalies db' = db_anomalies db /\
  autoinc (db_reports db') = autoinc (db_reports db) /\
  Forall2 (fun r r' =>
             same_but_verified r r' /\
             (reports.id r <> report_id -> r' = r) /\
             (reports.id r = report_id -> reports.verified r' = v))
          (rows (db_reports db)) (rows (db_reports db')).
Proof.
  cbv zeta. repeat split.
  cbn [update_verified db_reports rows].
  induction (rows (db_reports db)) as [ | r l IH ]; cbn [map]; constructor.
  - destruct (Z.eqb_spec (reports.id r) report_id) as [Heq | Hne].
    + repeat split; try reflexivity. intros Hne. contradiction.
    + repeat split; try reflexivity. intros Heq. contradiction.
  - exact IH.
Qed.

(** C9.  Approving or rejecting a report changes the [verified] column of
    the rows with that id and nothing else: every column of every other
    row, every other column of those rows (risk, prediction, confidence,
    coordinates among them), the alerts and the anomalies stay as they
    were.  A later upload leaves the rows that exist as they are. *)
Theorem review_changes_only_verified report_id db :
  let only_verified := fun (v : Z) (db' : database) =>
    db_alerts db' = db_alerts db /\
    db_anomalies db' = db_anomalies db /\
    autoinc (db_reports db') = autoinc (db_reports db) /\
    Forall2 (fun r r' =>
               same_but_verified r r' /\
               (reports.id r <> report_id -> r' = r) /\
               (reports.id r = report_id -> reports.verified r' = v))
            (rows (db_reports db)) (rows (db_reports db')) in
  only_verified 1 (snd (approve_report report_id db)) /\
  only_verified (-1) (snd (reject_report report_id db)) /\
  forall (math : Math) model_predict clk req,
  exists added,
    rows (db_reports (snd (upload (math := math) model_predict clk req db)))
    = (rows (db_reports db) ++ added)%list.
Proof.
  cbv zeta. split; [ | split ].
  - apply (update_verified_frame 1 report_id db).
  - apply (update_verified_frame (-1) report_id db).
  - intros math model_predict clk req. apply upload_keeps_rows.
Qed.

(** ** Spread trend *)

Lemma recent_invasive_iff now r :
  recent_invasive now r = true <->
  py_in (reports.prediction r) invasive_species = true /\
  now - seven_days <= reports.created_at r.
Proof.
  unfold recent_invasive. rewrite andb_true_iff, Z.leb_le. reflexivity.
Qed.

(** BETWEEN takes both of its ends. *)
Lemma previous_invasive_iff now r :
  previous_invasive now r = true <->
  py_in (reports.prediction r) invasive_species = true /\
  now - fourteen_days <= reports.created_at r <= now - seven_days.
Proof.
  unfold previous_invasive. rewrite !andb_true_iff, !Z.leb_le. reflexivity.
Qed.

(** A report made exactly seven days before 'now' satisfies both WHERE
    clauses. *)
Lemma boundary_report_in_both_weeks now r :
  py_in (reports.prediction r) invasive_species = true ->
  reports.created_at r = now - seven_days ->
  recent_invasive now r = true /\ previous_invasive now r = true.
Proof.
  intros Hinv Hat.
  rewrite recent_invasive_iff, previous_invasive_iff.
  unfold fourteen_days, seven_days in *.
  repeat split; try exact Hinv; lia.
Qed.

Lemma trend_label now_current now_previous db :
  let '(current_week, previous_week, trend) :=
    get_spread_trend now_current now_previous db in
  ((previous_week < current_week)%nat -> trend = "Spreading ðŸ”º") /\
  (current_week = previous_week -> trend = "Stable âž–") /\
  ((current_week < previous_week)%nat -> trend = "Declining ðŸ”»").
Proof.
  unfold get_spread_trend.
  set (cw := select_count (recent_invasive _) db).
  set (pw := select_count (previous_invasive _) db).
  destruct (Nat.ltb_spec pw cw) as [Hlt | Hge].
  - repeat split; intros; try reflexivity; lia.
  - destruct (Nat.eqb_spec cw pw) as [Heq | Hne];
      repeat split; intros; try reflexivity; lia.
Qed.

(** C4, where the code departs from it.  With one invasive report made
    exactly seven days before 'now', the current week and the previous week
    both count it. *)
Theorem previous_week_counts_boundary_report now :
  let boundary := sample_report 1 0 0 (now - seven_days) in
  get_spread_trend now now (database_of_reports [boundary])
  = (1%nat, 1%nat, "Stable âž–").
Proof.
  cbv zeta.
  destruct (boundary_report_in_both_weeks now
              (sample_report 1 0 0 (now - seven_days)) eq_refl eq_refl)
    as (Hcur & Hprev).
  unfold get_spread_trend, select_count, database_of_reports.
  cbn [db_reports rows filter].
  rewrite Hcur, Hprev. reflexivity.
Qed.

(** ** Runs on the sample inputs *)

(** Gives the response and the database that a run ends with. *)
Ltac run_to_end run :=
  let v := eval vm_compute in run in
  lazymatch v with
  | (Returned ?resp, ?db') =>
      exists resp, db';
      assert (Hup : run = (Returned resp, db')) by (vm_compute; reflexivity);
      split; [ exact Hup | ]
  end.

(** Ten invasive reports at the sighting's own position: the score is
    4.0 + 3.0 + 0.3, and the risk is High. *)
Lemma upload_scores_invasive_report_witness :
  exists resp db',
    upload (math := small_angle_math) (constant_model 1 0.9) sample_clock
      (sample_request 0 0) sample_outbreak = (Returned resp, db') /\
    py_in (page_prediction resp) invasive_species = true /\
    ((6 <=? risk_score_value 10 10 1)%float = true /\
     (risk_score_value 10 10 1 <? 9)%float = true) /\
    page_risk resp = "High" /\
    (6 <= exact_score 10 10 1 /\ exact_score 10 10 1 < 9)%Q.
Proof.
  run_to_end (upload (math := small_angle_math) (constant_model 1 0.9)
                sample_clock (sample_request 0 0) sample_outbreak).
  split; [ reflexivity | ].
  assert (Hscore : (6 <=? risk_score_value 10 10 1)%float = true /\
                   (risk_score_value 10 10 1 <? 9)%float = true)
    by (split; vm_compute; reflexivity).
  split; [ exact Hscore | ].
  destruct (upload_scores_invasive_report (math := small_angle_math)
              (constant_model 1 0.9) sample_clock (sample_request 0 0)
              sample_outbreak _ _ Hup eq_refl)
    as (c & row & Hc & _ & _ & _ & _ & _ & _ & Hhigh & _ & Hexact).
  injection Hc as <-.
  pose proof (proj2 Hhigh Hscore) as Hrisk.
  split; [ exact Hrisk | ].
  destruct (Hexact ltac:(vm_compute; reflexivity)) as (_ & _ & Hexact_high & _).
  exact (proj1 Hexact_high Hrisk).
Defined.

(** The outbreak again: the anomaly row is written at the sighting's
    position. *)
Lemma upload_anomaly_iff_cluster_witness :
  exists resp db',
    upload (math := small_angle_math) (constant_model 1 0.9) sample_clock
      (sample_request 0 0) sample_outbreak = (Returned resp, db') /\
    exists anomaly,
      rows (db_anomalies db') = [anomaly] /\
      anomalies.latitude anomaly = Some 0%float /\
      anomalies.radius anomaly = Some 20000%float.
Proof.
  run_to_end (upload (math := small_angle_math) (constant_model 1 0.9)
                sample_clock (sample_request 0 0) sample_outbreak).
  destruct (upload_anomaly_iff_cluster (math := small_angle_math)
              (constant_model 1 0.9) sample_clock (sample_request 0 0)
              sample_outbreak _ _ Hup)
    as [(Hsame & _)
       | (_ & c & a & row & _ & _ & _ & Hrows & _ & Hlat & _ & _ & _ & Hrad & _)].
  - vm_compute in Hsame. discriminate.
  - exists a. split; [ exact Hrows | ]. split; [ exact Hlat | exact Hrad ].
Defined.

(** The outbreak again: one alert row, of severity High. *)
Lemma upload_alert_iff_high_or_critical_witness :
  exists resp db',
    upload (math := small_angle_math) (constant_model 1 0.9) sample_clock
      (sample_request 0 0) sample_outbreak = (Returned resp, db') /\
    page_risk resp = "High" /\
    exists alert,
      rows (db_alerts db') = [alert] /\
      alerts.severity alert = "High" /\
      alerts.status alert = "Active" /\
      alerts.species alert = "Apple snail".
Proof.
  run_to_end (upload (math := small_angle_math) (constant_model 1 0.9)
                sample_clock (sample_request 0 0) sample_outbreak).
  split; [ reflexivity | ].
  destruct (upload_alert_iff_high_or_critical (math := small_angle_math)
              (constant_model 1 0.9) sample_clock (sample_request 0 0)
              sample_outbreak _ _ Hup)
    as (row & _ & _ & _ & [(_ & alert & Hrows & Hsev & Hst & Hsp) | (Hno & _)]).
  - exists alert. repeat split; assumption.
  - exfalso. apply Hno. reflexivity.
Defined.

(** A classifier that is 65 percent sure of the Asian longhorned beetle. *)
Lemma low_confidence_is_uncertain_witness :
  predict_species (constant_model 2 0.65) "static/sighting.jpg"
    = Returned ("Unknown Species", 0.65%float) /\
  db_alerts (snd (upload (math := small_angle_math) (constant_model 2 0.65)
                    sample_clock (sample_request 0 0) sample_outbreak))
    = db_alerts sample_outbreak.
Proof.
  destruct (low_confidence_is_uncertain
              (constant_model 2 0.65) sample_clock (sample_request 0 0)
              sample_outbreak eq_refl)
    as (Hpred & Hup & _ & Halerts).
  split; [ exact Hpred | ].
  rewrite (Hup small_angle_math). exact Halerts.
Defined.

(** Two candidates due north of the origin, for which the stand-in gives
    20.0 and 20.0001 km. *)
Lemma cluster_boundary_is_inclusive_witness :
  calculate_distance (math := small_angle_math) 0 0 0.17986409961983918 0
    = Returned 20%float /\
  count_cluster (math := small_angle_math) 0 0
    [(Some 0.17986409961983918%float, Some 0%float, 0)] 0 = Returned 1%nat /\
  calculate_distance (math := small_angle_math) 0 0 0.17986499893812158 0
    = Returned 20.0001%float /\
  count_cluster (math := small_angle_math) 0 0
    [(Some 0.17986499893812158%float, Some 0%float, 0)] 0 = Returned 0%nat.
Proof.
  destruct (cluster_boundary_is_inclusive (math := small_angle_math)
              0 0 0.17986409961983918 0 0 [] 0 20 eq_refl)
    as (Hat & _ & _).
  destruct (cluster_boundary_is_inclusive (math := small_angle_math)
              0 0 0.17986499893812158 0 0 [] 0 20.0001 eq_refl)
    as (_ & Hbeyond & _).
  split; [ reflexivity | ].
  split; [ exact (Hat eq_refl) | ].
  split; [ reflexivity | exact (Hbeyond eq_refl) ].
Defined.

(** The outbreak again: ten rows in the window that was counted, eleven in
    the window afterwards. *)
Lemma upload_counts_exclude_new_report_witness :
  exists resp db',
    upload (math := small_angle_math) (constant_model 1 0.9) sample_clock
      (sample_request 0 0) sample_outbreak = (Returned resp, db') /\
    List.length (select_recent_invasive (now_select sample_clock) sample_outbreak)
      = 10%nat /\
    List.length (select_recent_invasive (now_select sample_clock) db') = 11%nat.
Proof.
  run_to_end (upload (math := small_angle_math) (constant_model 1 0.9)
                sample_clock (sample_request 0 0) sample_outbreak).
  split; [ reflexivity | ].
  destruct (upload_counts_exclude_new_report (math := small_angle_math)
              (constant_model 1 0.9) sample_clock (sample_request 0 0)
              sample_outbreak _ _ Hup eq_refl)
    as (c & row & _ & _ & _ & _ & Hafter).
  rewrite Hafter. reflexivity.
Defined.

(** The outbreak again: ten of ten recent reports are near, and the score
    is above 1.7. *)
Lemma cluster_count_at_most_recent_count_witness :
  exists resp db',
    upload (math := small_angle_math) (constant_model 1 0.9) sample_clock
      (sample_request 0 0) sample_outbreak = (Returned resp, db') /\
    (1.7 <= exact_score 10 10 1)%Q /\
    (1.7 <=? risk_score_value 10 10 1)%float = true.
Proof.
  run_to_end (upload (math := small_angle_math) (constant_model 1 0.9)
                sample_clock (sample_request 0 0) sample_outbreak).
  destruct (cluster_count_at_most_recent_count (math := small_angle_math)
              (constant_model 1 0.9) sample_clock (sample_request 0 0)
              sample_outbreak _ _ Hup eq_refl)
    as (c & Hc & _ & _ & Hfires).
  injection Hc as <-.
  destruct (Hfires ltac:(repeat constructor)) as (_ & _ & _ & Hexact & Hscore).
  split; [ exact Hexact | ].
  exact (Hscore ltac:(vm_compute; reflexivity)).
Defined.



(** The four scores worked out in the specification, as the code computes
    them and in exact arithmetic: 2.6, 5.3, 8.8 and 14.3. *)
Example worked_scores :
  map (fun t => risk_level (risk_score_value (fst (fst t)) (snd (fst t)) (snd t)))
      [(2, 5, 1); (5, 10, 1); (10, 15, 1); (20, 20, 1)]%nat
    = ["Low"; "Moderate"; "High"; "Critical ðŸš¨"] /\
  map (fun t => exact_level (exact_score (fst (fst t)) (snd (fst t)) (snd t)))
      [(2, 5, 1); (5, 10, 1); (10, 15, 1); (20, 20, 1)]%nat
    = ["Low"; "Moderate"; "High"; "Critical ðŸš¨"].
Proof. split; vm_compute; reflexivity. Qed.

(** A NaN latitude is accepted as well; its row holds NULL, and the next
    invasive upload within the week fails on it with TypeError, before any
    write. *)
Example nan_coordinate_stored_as_null :
  let first := upload (math := small_angle_math) (constant_model 1 0.9)
                 sample_clock (sample_request nan 0) create_table in
  let second := upload (math := small_angle_math) (constant_model 1 0.9)
                  sample_clock (sample_request 0 0) (snd first) in
  map reports.latitude (rows (db_reports (snd first))) = [None] /\
  second = (Raised TypeError, snd first).
Proof. split; vm_compute; reflexivity. Qed.

(** The smallest score with which an anomaly fires is the float 1.7, the
    binary64 number nearest to 17/10, which lies just below it. *)
Example least_anomaly_score :
  risk_score_value 2 2 1 = 1.7%float /\
  FloatOps.Prim2SF (risk_score_value 2 2 1)
    = SpecFloat.S754_finite false 7656119366529843 (-52) /\
  7656119366529843 * 10 < 17 * 2 ^ 52.
Proof. split; [ | split ]; vm_compute; reflexivity. Qed.

(** * Further properties of the handlers *)

(** ** Review decisions *)

Lemma approve_report_eq report_id db :
  approve_report report_id db
  = (Returned "Report Approved! <a href='/admin/review'>Back to Review</a>",
     update_verified 1 report_id db).
Proof. reflexivity. Qed.

Lemma reject_report_eq report_id db :
  reject_report report_id db
  = (Returned "Report Rejected! <a href='/admin/review'>Back to Review</a>",
     update_verified (-1) report_id db).
Proof. reflexivity. Qed.

Lemma update_verified_twice v w report_id db :
  update_verified v report_id (update_verified w report_id db)
  = update_verified v report_id db.
Proof.
  unfold update_verified. cbn [db_reports db_alerts db_anomalies rows autoinc].
  do 2 f_equal. rewrite map_map. apply map_ext. intros r.
  destruct (Z.eqb_spec (reports.id r) report_id) as [Heq | Hne].
  - cbn [set_verified reports.id]. rewrite Heq, Z.eqb_refl. reflexivity.
  - destruct (Z.eqb_spec (reports.id r) report_id); [ contradiction | reflexivity ].
Qed.

Lemma update_verified_swap v w i j db :
  i <> j ->
  update_verified v i (update_verified w j db)
  = update_verified w j (update_verified v i db).
Proof.
  intros Hij. unfold update_verified.
  cbn [db_reports db_alerts db_anomalies rows autoinc].
  do 2 f_equal. rewrite !map_map. apply map_ext. intros r.
  destruct (Z.eqb_spec (reports.id r) j) as [Hj | Hj];
    destruct (Z.eqb_spec (reports.id r) i) as [Hi | Hi];
    cbn [set_verified reports.id];
    try (exfalso; congruence).
  - destruct (Z.eqb_spec (reports.id r) i); [ congruence | ].
    destruct (Z.eqb_spec (reports.id r) j); [ reflexivity | congruence ].
  - destruct (Z.eqb_spec (reports.id r) i); [ | congruence ].
    destruct (Z.eqb_spec (reports.id r) j); [ congruence | reflexivity ].
  - destruct (Z.eqb_spec (reports.id r) i); [ congruence | ].
    destruct (Z.eqb_spec (reports.id r) j); [ congruence | reflexivity ].
Qed.

Lemma update_verified_absent v report_id db :
  (forall r, In r (rows (db_reports db)) -> reports.id r <> report_id) ->
  update_verified v report_id db = db.
Proof.
  intros Habsent. destruct db as [[rs n] al an]. unfold update_verified.
  cbn [db_reports db_alerts db_anomalies rows autoinc] in *.
  do 2 f_equal.
  induction rs as [ | r rs IH ]; [ reflexivity | ].
  cbn [map].
  destruct (Z.eqb_spec (reports.id r) report_id) as [Heq | Hne].
  - exfalso. apply (Habsent r); [ left; reflexivity | exact Heq ].
  - f_equal. apply IH. intros r' Hin. apply Habsent. right. exact Hin.
Qed.

(** The last decision on a report is the one that stands: a rejected report
    can be approved, an approved one rejected, and repeating a decision
    changes nothing. *)
Theorem review_last_decision_wins report_id db :
  snd (approve_report report_id (snd (reject_report report_id db)))
    = snd (approve_report report_id db) /\
  snd (reject_report report_id (snd (approve_report report_id db)))
    = snd (reject_report report_id db) /\
  snd (approve_report report_id (snd (approve_report report_id db)))
    = snd (approve_report report_id db) /\
  snd (reject_report report_id (snd (reject_report report_id db)))
    = snd (reject_report report_id db).
Proof.
  repeat (rewrite ?approve_report_eq, ?reject_report_eq; cbn [snd]).
  repeat split; apply update_verified_twice.
Qed.

(** A decision on an id that no report has, among the ids that the URL
    converter passes and sqlite3 binds (from 0 to below 2^63), is answered
    like any other, and changes no table. *)
Theorem review_of_missing_report report_id db :
  0 <= report_id < 2 ^ 63 ->
  (forall r, In r (rows (db_reports db)) -> reports.id r <> report_id) ->
  approve_report report_id db
    = (Returned "Report Approved! <a href='/admin/review'>Back to Review</a>", db) /\
  reject_report report_id db
    = (Returned "Report Rejected! <a href='/admin/review'>Back to Review</a>", db).
Proof.
  intros _ Habsent. rewrite approve_report_eq, reject_report_eq.
  rewrite !(update_verified_absent _ _ _ Habsent). split; reflexivity.
Qed.

(** Decisions on different reports can be taken in either order. *)
Theorem reviews_of_different_reports_commute i j db :
  i <> j ->
  snd (approve_report i (snd (reject_report j db)))
    = snd (reject_report j (snd (approve_report i db))) /\
  snd (approve_report i (snd (approve_report j db)))
    = snd (approve_report j (snd (approve_report i db))) /\
  snd (reject_report i (snd (reject_report j db)))
    = snd (reject_report j (snd (reject_report i db))).
Proof.
  intros Hij.
  repeat (rewrite ?approve_report_eq, ?reject_report_eq; cbn [snd]).
  repeat split; apply update_verified_swap; exact Hij.
Qed.

Lemma rows_update_verified v report_id db :
  rows (db_reports (update_verified v report_id db))
  = map (fun r => if reports.id r =? report_id then set_verified v r else r)
        (rows (db_reports db)).
Proof. reflexivity. Qed.

(** A query that does not read [verified] sees the same rows after a
    decision. *)
Lemma filter_update_verified (p : reports.row -> bool) v report_id db :
  (forall r, p (set_verified v r) = p r) ->
  map (set_verified 0) (filter p (rows (db_reports (update_verified v report_id db))))
  = map (set_verified 0) (filter p (rows (db_reports db))).
Proof.
  intros Hp. rewrite rows_update_verified.
  induction (rows (db_reports db)) as [ | r rs IH ]; [ reflexivity | ].
  cbn [map filter].
  destruct (Z.eqb_spec (reports.id r) report_id) as [Heq | Hne].
  - rewrite Hp. destruct (p r); cbn [map]; rewrite IH; reflexivity.
  - destruct (p r); cbn [map]; rewrite IH; reflexivity.
Qed.

Lemma select_recent_invasive_update_verified now v report_id db :
  select_recent_invasive now (update_verified v report_id db)
  = select_recent_invasive now db.
Proof.
  unfold select_recent_invasive.
  pose proof (filter_update_verified (recent_invasive now) v report_id db
                (fun r => eq_refl)) as H.
  apply (f_equal (map (fun r => (reports.latitude r, reports.longitude r,
                                 reports.created_at r)))) in H.
  rewrite !map_map in H. exact H.
Qed.

Lemma select_count_update_verified (p : reports.row -> bool) v report_id db :
  (forall r, p (set_verified v r) = p r) ->
  select_count p (update_verified v report_id db) = select_count p db.
Proof.
  intros Hp. unfold select_count.
  pose proof (filter_update_verified p v report_id db Hp) as H.
  apply (f_equal (@List.length _)) in H. rewrite !length_map in H. exact H.
Qed.

Lemma get_spread_trend_update_verified now_current now_previous v report_id db :
  get_spread_trend now_current now_previous (update_verified v report_id db)
  = get_spread_trend now_current now_previous db.
Proof.
  unfold get_spread_trend.
  rewrite !select_count_update_verified by (intros r; reflexivity).
  reflexivity.
Qed.

Section ReviewAndAssessment.

Context {math : Math}.
Variable model_predict : string -> nat * float.

Lemma upload_page_update_verified clk req v report_id db :
  fst (upload model_predict clk req (update_verified v report_id db))
  = fst (upload model_predict clk req db).
Proof.
  rewrite !upload_eq.
  destruct (predict_species model_predict _) as [[result confidence] | e];
    [ | reflexivity ].
  destruct (py_in result invasive_species); [ | reflexivity ].
  cbv zeta. rewrite select_recent_invasive_update_verified.
  destruct (count_cluster _ _ _ _); reflexivity.
Qed.

(** The verification state plays no part in scoring or in the trend: after a
    report is approved or rejected, an upload is answered as before (a
    rejected invasive report still counts in clusters and recent counts),
    and the weekly counts are what they were. *)
Theorem assessment_ignores_review clk req report_id db :
  fst (upload model_predict clk req (snd (approve_report report_id db)))
    = fst (upload model_predict clk req db) /\
  fst (upload model_predict clk req (snd (reject_report report_id db)))
    = fst (upload model_predict clk req db) /\
  (forall now_current now_previous,
     get_spread_trend now_current now_previous (snd (approve_report report_id db))
       = get_spread_trend now_current now_previous db /\
     get_spread_trend now_current now_previous (snd (reject_report report_id db))
       = get_spread_trend now_current now_previous db).
Proof.
  rewrite approve_report_eq, reject_report_eq. cbn [snd].
  split; [ apply upload_page_update_verified | ].
  split; [ apply upload_page_update_verified | ].
  intros now_current now_previous.
  split; apply get_spread_trend_update_verified.
Qed.

End ReviewAndAssessment.

(** ** The ordered pages *)

Lemma insert_desc_permutation {R : Type} (key : R -> Z) x l :
  Permutation (x :: l) (insert_desc key x l).
Proof.
  induction l as [ | y l IH ]; cbn [insert_desc]; [ reflexivity | ].
  destruct (key y <=? key x); [ reflexivity | ].
  rewrite perm_swap. apply perm_skip. exact IH.
Qed.

Lemma insert_desc_sorted {R : Type} (key : R -> Z) x l :
  StronglySorted (fun a b => key b <= key a) l ->
  StronglySorted (fun a b => key b <= key a) (insert_desc key x l).
Proof.
  induction l as [ | y l IH ]; intros Hsorted; cbn [insert_desc].
  - constructor; constructor.
  - inversion Hsorted as [ | ? ? Hl Hy ]; subst.
    destruct (Z.leb_spec (key y) (key x)) as [Hle | Hlt].
    + constructor; [ exact Hsorted | ].
      constructor; [ exact Hle | ].
      rewrite Forall_forall in Hy |- *. intros z Hz. specialize (Hy z Hz). lia.
    + constructor; [ apply IH; exact Hl | ].
      rewrite Forall_forall in Hy |- *. intros z Hz.
      apply (Permutation_in _ (Permutation_sym (insert_desc_permutation key x l)))
        in Hz.
      destruct Hz as [<- | Hz]; [ lia | apply Hy; exact Hz ].
Qed.

(** The insertion sort is an ordering of the kind the pages are proved
    for. *)
Lemma sort_desc_orders : orders_by_desc sort_desc.
Proof.
  intros R key l. unfold sort_desc. split.
  - induction l as [ | x l IH ]; cbn [fold_right]; [ reflexivity | ].
    rewrite <- insert_desc_permutation. apply perm_skip. exact IH.
  - induction l as [ | x l IH ]; cbn [fold_right]; [ constructor | ].
    apply insert_desc_sorted. exact IH.
Qed.

Section OrderedPages.

Variable order_by : forall R : Type, (R -> Z) -> list R -> list R.
Hypothesis order_by_orders : orders_by_desc order_by.

Lemma in_order_by {R : Type} (key : R -> Z) l x :
  In x (order_by R key l) <-> In x l.
Proof.
  destruct (order_by_orders R key l) as (Hperm & _). split.
  - apply Permutation_in. symmetry. exact Hperm.
  - apply Permutation_in. exact Hperm.
Qed.

Lemma in_admin_review db item :
  In item (admin_review order_by db) <->
  exists r, In r (rows (db_reports db)) /\ reports.verified r = 0 /\
            item = review_row r.
Proof.
  unfold admin_review. rewrite in_map_iff. split.
  - intros (r & <- & Hin). apply in_order_by in Hin.
    apply filter_In in Hin. destruct Hin as (Hin & Hv).
    exists r. rewrite Z.eqb_eq in Hv. auto.
  - intros (r & Hin & Hv & ->). exists r. split; [ reflexivity | ].
    apply in_order_by. apply filter_In. rewrite Z.eqb_eq. auto.
Qed.

(** The review queue holds the unverified reports and only them, newest
    first, and is as long as the dashboard's count of unverified reports. *)
Theorem admin_review_lists_unverified any_order now_current now_previous db :
  (forall item,
     In item (admin_review order_by db) <->
     exists r, In r (rows (db_reports db)) /\ reports.verified r = 0 /\
               item = review_row r) /\
  StronglySorted (fun a b => review_html.created_at b <= review_html.created_at a)
    (admin_review order_by db) /\
  List.length (admin_review order_by db)
    = dashboard_html.unverified_reports
        (dashboard any_order now_current now_previous db).
Proof.
  split; [ intros item; apply in_admin_review | ].
  unfold admin_review.
  destruct (order_by_orders _ reports.created_at
              (filter (fun r => reports.verified r =? 0) (rows (db_reports db))))
    as (Hperm & Hsorted).
  split.
  - clear Hperm.
    induction Hsorted as [ | r l Hl IH Hr ]; cbn [map]; constructor.
    + exact IH.
    + rewrite Forall_forall in Hr |- *. intros item Hitem.
      apply in_map_iff in Hitem. destruct Hitem as (r' & <- & Hin).
      cbn. apply Hr. exact Hin.
  - rewrite length_map. rewrite <- (Permutation_length Hperm). reflexivity.
Qed.

(** A decided report leaves the review queue, whichever way the decision
    went, and the queue keeps every other entry. *)
Theorem decided_report_leaves_queue report_id db item :
  (In item (admin_review order_by (snd (approve_report report_id db))) <->
   In item (admin_review order_by db) /\ review_html.id item <> report_id) /\
  (In item (admin_review order_by (snd (reject_report report_id db))) <->
   In item (admin_review order_by db) /\ review_html.id item <> report_id).
Proof.
  assert (Hany : forall v, v <> 0 ->
    (In item (admin_review order_by (update_verified v report_id db)) <->
     In item (admin_review order_by db) /\ review_html.id item <> report_id)).
  { intros v Hv. rewrite !in_admin_review, rows_update_verified. split.
    - intros (r' & Hin & Hver & ->). apply in_map_iff in Hin.
      destruct Hin as (r & Hr & Hin).
      destruct (Z.eqb_spec (reports.id r) report_id) as [Heq | Hne]; subst r'.
      + cbn in Hver. contradiction.
      + split; [ exists r; auto | exact Hne ].
    - intros ((r & Hin & Hver & ->) & Hne). exists r.
      split; [ | auto ].
      apply in_map_iff. exists r. split; [ | exact Hin ].
      cbn in Hne.
      destruct (Z.eqb_spec (reports.id r) report_id); [ contradiction | reflexivity ]. }
  rewrite approve_report_eq, reject_report_eq. cbn [snd].
  split; apply Hany; discriminate.
Qed.

End OrderedPages.

(** ** What every database that the handlers produce satisfies *)

Lemma keys_in_sequence_insert {R : Type} (key : R -> Z) (t : table R) (mk : Z -> R) :
  (forall i, key (mk i) = i) ->
  keys_in_sequence key t -> keys_in_sequence key (insert t mk).
Proof.
  intros Hkey (Hkeys & Hauto). unfold keys_in_sequence, insert.
  cbn [rows autoinc]. rewrite length_app. cbn [List.length].
  rewrite Nat.add_1_r. split.
  - rewrite map_app, seq_S, map_app, Hkeys. cbn [map]. rewrite Hkey, Hauto.
    do 2 f_equal. lia.
  - rewrite Hauto. lia.
Qed.

Lemma create_table_consistent : consistent create_table.
Proof.
  unfold consistent, keys_in_sequence, select_count. cbn.
  repeat split; try constructor.
Qed.

Lemma risk_level_values s :
  In (risk_level s) ["Low"; "Moderate"; "High"; "Critical ðŸš¨"].
Proof.
  unfold risk_level.
  destruct (s <? 3)%float; [ cbn; tauto | ].
  destruct (s <? 6)%float; [ cbn; tauto | ].
  destruct (s <? 9)%float; cbn; tauto.
Qed.

Lemma update_verified_consistent v report_id db :
  v = 1 \/ v = -1 ->
  consistent db -> consistent (update_verified v report_id db).
Proof.
  intros Hv (Hrk & Hak & Hnk & Hr & Ha & Hn & Hcount & Hle).
  assert (Hcounts : forall p : reports.row -> bool,
            (forall r, p (set_verified v r) = p r) ->
            select_count p (update_verified v report_id db) = select_count p db).
  { intros p Hp. apply select_count_update_verified. exact Hp. }
  unfold consistent.
  rewrite !Hcounts by (intros r; reflexivity).
  change (db_alerts (update_verified v report_id db)) with (db_alerts db).
  change (db_anomalies (update_verified v report_id db)) with (db_anomalies db).
  repeat split; try assumption; try apply Hak; try apply Hnk.
  - unfold keys_in_sequence in *. rewrite rows_update_verified.
    cbn [db_reports update_verified rows autoinc]. rewrite length_map.
    destruct Hrk as (Hkeys & Hauto). rewrite <- Hkeys. rewrite map_map.
    apply map_ext. intros r. destruct (reports.id r =? report_id); reflexivity.
  - unfold keys_in_sequence in *. rewrite rows_update_verified.
    cbn [db_reports update_verified rows autoinc]. rewrite length_map. apply Hrk.
  - rewrite rows_update_verified. rewrite Forall_map.
    revert Hr. apply Forall_impl. intros r (Hver & Hrisk).
    destruct (reports.id r =? report_id); [ | split; assumption ].
    split; [ cbn; tauto | exact Hrisk ].
  - revert Hn. apply Forall_impl. intros a (Hrad & Hdesc & r & Hin & Hinv & Hlat & Hlon).
    split; [ exact Hrad | ]. split; [ exact Hdesc | ].
    rewrite rows_update_verified.
    exists (if reports.id r =? report_id then set_verified v r else r).
    split;
      [ exact (in_map (fun r0 => if reports.id r0 =? report_id
                                 then set_verified v r0 else r0) _ _ Hin) | ].
    destruct (reports.id r =? report_id); auto.
Qed.

Lemma select_count_insert (p : reports.row -> bool) db db' mk :
  db_reports db' = insert (db_reports db) mk ->
  select_count p db'
  = (select_count p db
     + (if p (mk (autoinc (db_reports db) + 1)%Z) then 1 else 0))%nat.
Proof.
  intros Hrep. unfold select_count. rewrite Hrep. unfold insert. cbn [rows].
  rewrite filter_app, length_app. cbn [filter].
  destruct (p _); reflexivity.
Qed.

Lemma Forall_insert {R : Type} (P : R -> Prop) (t : table R) (mk : Z -> R) :
  Forall P (rows t) -> P (mk (autoinc t + 1)) -> Forall P (rows (insert t mk)).
Proof.
  intros Hall Hnew. unfold insert. cbn [rows].
  apply Forall_app. split; [ exact Hall | constructor; [ exact Hnew | constructor ] ].
Qed.

(** The tables after the three INSERTs of an upload, the first two
    optional, satisfy what the tables before them did. *)
Lemma assessed_consistent clk req result confidence risk (with_anomaly : bool) db :
  consistent db ->
  (result = "Unknown Species" /\ risk = "Uncertain - Low Confidence Detection") \/
  (result = "Dung beetle" /\ risk = "Low Risk (Native Species)") \/
  (py_in result invasive_species = true /\
   In risk ["Low"; "Moderate"; "High"; "Critical ðŸš¨"]) ->
  (with_anomaly = true -> py_in result invasive_species = true) ->
  (py_in risk ["High"; "Critical ðŸš¨"] = true ->
   py_in result invasive_species = true) ->
  consistent
    (saved clk req result confidence risk
       (after_alert clk req risk result
          (if with_anomaly
           then insert_anomaly (form_latitude req) (form_longitude req) 20000%float
                  "Vegetation Stress Detected via Satellite Correlation" db
           else db))).
Proof.
  intros (Hrk & Hak & Hnk & Hr & Ha & Hn & Hcount & Hle) Hrisk Hanom Halert.
  set (db' := saved _ _ _ _ _ _).
  set (mk_report := fun i =>
    {| reports.id := i;
       reports.image := filename req;
       reports.latitude := bind_real (form_latitude req);
       reports.longitude := bind_real (form_longitude req);
       reports.address := form_address req;
       reports.prediction := result;
       reports.created_at := now_report clk;
       reports.verified := 0;
       reports.confidence := bind_real confidence;
       reports.risk := risk |}).
  set (mk_alert := fun i =>
    {| alerts.id := i;
       alerts.latitude := bind_real (form_latitude req);
       alerts.longitude := bind_real (form_longitude req);
       alerts.severity := risk;
       alerts.message := result ++ " detected at high risk";
       alerts.created_at := now_alert clk;
       alerts.status := "Active";
       alerts.species := result |}).
  set (mk_anomaly := fun i =>
    {| anomalies.id := i;
       anomalies.latitude := bind_real (form_latitude req);
       anomalies.longitude := bind_real (form_longitude req);
       anomalies.radius := bind_real 20000%float;
       anomalies.description :=
         "Vegetation Stress Detected via Satellite Correlation" |}).
  assert (Hrep' : db_reports db' = insert (db_reports db) mk_report).
  { subst db'. unfold after_alert.
    destruct with_anomaly; destruct (py_in risk _); reflexivity. }
  assert (Hal' : db_alerts db'
                 = if py_in risk ["High"; "Critical ðŸš¨"]
                   then insert (db_alerts db) mk_alert else db_alerts db).
  { subst db'. unfold after_alert.
    destruct with_anomaly; destruct (py_in risk _); reflexivity. }
  assert (Han' : db_anomalies db'
                 = if with_anomaly
                   then insert (db_anomalies db) mk_anomaly else db_anomalies db).
  { subst db'. unfold after_alert.
    destruct with_anomaly; destruct (py_in risk _); reflexivity. }
  clearbody db'.
  assert (Hold : forall a, anomaly_consistent db a -> anomaly_consistent db' a).
  { intros a (Hrad & Hdesc & r & Hin & Hrest).
    split; [ exact Hrad | ]. split; [ exact Hdesc | ].
    exists r. split; [ | exact Hrest ].
    rewrite Hrep'. unfold insert. cbn [rows]. apply in_or_app. left. exact Hin. }
  unfold consistent.
  rewrite !(select_count_insert _ db db' mk_report Hrep').
  rewrite Hrep', Hal', Han'.
  cbn [mk_report reports.risk reports.prediction].
  split; [ apply keys_in_sequence_insert; [ reflexivity | exact Hrk ] | ].
  split.
  { destruct (py_in risk _); [ | exact Hak ].
    apply keys_in_sequence_insert; [ reflexivity | exact Hak ]. }
  split.
  { destruct with_anomaly; [ | exact Hnk ].
    apply keys_in_sequence_insert; [ reflexivity | exact Hnk ]. }
  split.
  { apply Forall_insert; [ exact Hr | ].
    split; [ left; reflexivity | exact Hrisk ]. }
  split.
  { destruct (py_in risk _) eqn:Hhigh; [ | exact Ha ].
    apply Forall_insert; [ exact Ha | ].
    repeat split; [ apply Halert; reflexivity | exact Hhigh ]. }
  split.
  { destruct with_anomaly.
    - apply Forall_insert.
      + revert Hn. apply Forall_impl. exact Hold.
      + split; [ reflexivity | ]. split; [ reflexivity | ].
        exists (mk_report (autoinc (db_reports db) + 1)).
        split; [ | split; [ apply Hanom; reflexivity | split; reflexivity ] ].
        rewrite Hrep'. unfold insert. cbn [rows]. apply in_or_app.
        right. left. reflexivity.
    - revert Hn. apply Forall_impl. exact Hold. }
  split.
  { destruct (py_in risk _); [ | lia ].
    unfold insert. cbn [rows]. rewrite length_app. cbn [List.length]. lia. }
  destruct with_anomaly.
  - rewrite (Hanom eq_refl).
    unfold insert. cbn [rows]. rewrite length_app. cbn [List.length]. lia.
  - destruct (py_in result invasive_species); lia.
Qed.

Section Reachable.

Context {math : Math}.
Variable model_predict : string -> nat * float.

(** The label that [predict_species] returns is Unknown Species or one of
    the three classes. *)
Lemma predict_species_values image_path result confidence :
  predict_species model_predict image_path = Returned (result, confidence) ->
  result = "Unknown Species" \/ In result classes.
Proof.
  unfold predict_species.
  destruct (_ <? _)%float.
  - intros H. injection H as <- _. left. reflexivity.
  - destruct (nth_error classes _) as [label | ] eqn:Hnth; [ | discriminate ].
    intros H. injection H as <- _. right. apply (nth_error_In _ _ Hnth).
Qed.

Lemma serve_consistent db a :
  consistent db -> consistent (serve model_predict db a).
Proof.
  intros Hdb. destruct a as [clk req | report_id | report_id]; cbn [serve].
  - unfold run_request. rewrite upload_eq.
    destruct (predict_species model_predict _) as [[result confidence] | e] eqn:Hpred;
      [ | exact Hdb ].
    apply predict_species_values in Hpred.
    destruct (py_in result invasive_species) eqn:Hinv.
    + cbv zeta. destruct (count_cluster _ _ _ _) as [c | e]; [ | exact Hdb ].
      cbn [snd]. unfold after_anomaly.
      apply assessed_consistent; [ exact Hdb | | auto | auto ].
      right. right. split; [ exact Hinv | apply risk_level_values ].
    + cbn [snd].
      pose proof (assessed_consistent clk req result confidence
                    (default_risk result) false db Hdb) as H.
      unfold after_alert in H. rewrite default_risk_no_alert in H.
      apply H; try discriminate.
      destruct Hpred as [-> | Hclass]; [ left; split; reflexivity | ].
      cbn in Hclass.
      destruct Hclass as [<- | [<- | [<- | []]]];
        [ right; left; split; reflexivity | discriminate Hinv | discriminate Hinv ].
  - unfold run_request. rewrite approve_report_eq. cbn [snd].
    apply update_verified_consistent; [ left; reflexivity | exact Hdb ].
  - unfold run_request. rewrite reject_report_eq. cbn [snd].
    apply update_verified_consistent; [ right; reflexivity | exact Hdb ].
Qed.

Lemma fold_serve_consistent actions db :
  consistent db -> consistent (fold_left (serve model_predict) actions db).
Proof.
  revert db. induction actions as [ | a actions IH ]; intros db Hdb; cbn [fold_left].
  - exact Hdb.
  - apply IH. apply serve_consistent. exact Hdb.
Qed.

Lemma replay_consistent actions : consistent (replay model_predict actions).
Proof.
  apply fold_serve_consistent. apply create_table_consistent.
Qed.

End Reachable.

(** ** Looking a report up *)

Lemma find_by_key_from {R : Type} (key : R -> Z) (l : list R) (start : nat) (i : Z) :
  map key l = map Z.of_nat (List.seq start (List.length l)) ->
  find (fun r => key r =? i) l
  = if (Z.of_nat start <=? i) && (i <? Z.of_nat (start + List.length l))
    then nth_error l (Z.to_nat (i - Z.of_nat start))
    else None.
Proof.
  revert start. induction l as [ | r l IH ]; intros start Hkeys.
  - cbn [find List.length]. rewrite Nat.add_0_r.
    destruct (Z.leb_spec (Z.of_nat start) i); destruct (Z.ltb_spec i (Z.of_nat start));
      cbn [andb]; try reflexivity.
    lia.
  - cbn [map List.length List.seq] in Hkeys. injection Hkeys as Hr Hl.
    cbn [find]. rewrite Hr. rewrite (IH (S start) Hl). cbn [List.length].
    destruct (Z.eqb_spec (Z.of_nat start) i) as [<- | Hne].
    + rewrite Z.leb_refl, Z.sub_diag. cbn [andb Z.to_nat nth_error].
      destruct (Z.ltb_spec (Z.of_nat start) (Z.of_nat (start + S (List.length l))));
        [ reflexivity | lia ].
    + destruct (Z.leb_spec (Z.of_nat (S start)) i);
        destruct (Z.leb_spec (Z.of_nat start) i); try lia;
        destruct (Z.ltb_spec i (Z.of_nat (S start + List.length l)));
        destruct (Z.ltb_spec i (Z.of_nat (start + S (List.length l)))); try lia;
        cbn [andb]; try reflexivity.
      replace (Z.to_nat (i - Z.of_nat start))
        with (S (Z.to_nat (i - Z.of_nat (S start)))) by lia.
      reflexivity.
Qed.

(** In a table whose keys are 1, 2, ..., the row with key [i] is the
    [i]-th. *)
Lemma find_by_key {R : Type} (key : R -> Z) (t : table R) (i : Z) :
  keys_in_sequence key t ->
  find (fun r => key r =? i) (rows t)
  = if (1 <=? i) && (i <=? Z.of_nat (List.length (rows t)))
    then nth_error (rows t) (Z.to_nat (i - 1))
    else None.
Proof.
  intros (Hkeys & _). rewrite (find_by_key_from key (rows t) 1 i Hkeys).
  change (Z.of_nat 1) with 1.
  destruct (Z.leb_spec 1 i); cbn [andb]; [ | reflexivity ].
  destruct (Z.ltb_spec i (Z.of_nat (1 + List.length (rows t))));
    destruct (Z.leb_spec i (Z.of_nat (List.length (rows t)))); try lia; reflexivity.
Qed.

Lemma find_update_verified v report_id i db :
  find (fun r => reports.id r =? i) (rows (db_reports (update_verified v report_id db)))
  = option_map (fun r => if reports.id r =? report_id then set_verified v r else r)
      (find (fun r => reports.id r =? i) (rows (db_reports db))).
Proof.
  rewrite rows_update_verified.
  induction (rows (db_reports db)) as [ | r rs IH ]; [ reflexivity | ].
  cbn [map find].
  replace (reports.id (if reports.id r =? report_id then set_verified v r else r))
    with (reports.id r) by (destruct (reports.id r =? report_id); reflexivity).
  destruct (reports.id r =? i); [ reflexivity | exact IH ].
Qed.

Section ResultPage.

Context {math : Math}.
Variable model_predict : string -> nat * float.
Variable py_round : float -> Z -> float.

(** The page of a report shows nothing of its review: it is the same before
    and after the report, or any other, is approved or rejected. *)
Theorem result_page_ignores_review i report_id db :
  view_result py_round i (snd (approve_report report_id db))
    = view_result py_round i db /\
  view_result py_round i (snd (reject_report report_id db))
    = view_result py_round i db.
Proof.
  assert (Hany : forall v,
            view_result py_round i (update_verified v report_id db)
            = view_result py_round i db).
  { intros v. unfold view_result. rewrite find_update_verified.
    destruct (find _ (rows (db_reports db))) as [r | ]; [ | reflexivity ].
    cbn [option_map]. destruct (reports.id r =? report_id); reflexivity. }
  rewrite approve_report_eq, reject_report_eq. cbn [snd]. split; apply Hany.
Qed.

(** After any sequence of requests the reports have the ids 1 to n: among
    the ids that the URL converter passes and sqlite3 binds (from 0 to below
    2^63), a result page is not found exactly for those outside that
    range. *)
Theorem result_page_found_iff_issued actions i :
  0 <= i < 2 ^ 63 ->
  let db := replay model_predict actions in
  keys_in_sequence reports.id (db_reports db) /\
  (view_result py_round i db = Returned Report_not_found <->
   i < 1 \/ Z.of_nat (List.length (rows (db_reports db))) < i).
Proof.
  intros _. cbv zeta.
  destruct (replay_consistent model_predict actions) as (Hkeys & _).
  split; [ exact Hkeys | ].
  unfold view_result. rewrite (find_by_key _ _ i Hkeys).
  destruct (Z.leb_spec 1 i) as [H1 | H1]; cbn [andb].
  - destruct (Z.leb_spec i (Z.of_nat (List.length (rows (db_reports
               (replay model_predict actions)))))) as [Hn | Hn].
    + destruct (nth_error _ _) as [r | ] eqn:Hnth.
      * split; [ | lia ].
        destruct (reports.confidence r); discriminate.
      * apply nth_error_None in Hnth. lia.
    + split; [ intros _; right; exact Hn | reflexivity ].
  - split; [ intros _; left; exact H1 | reflexivity ].
Qed.

(** The row that an upload stores is the one its page shows, unverified. *)
Lemma upload_report_row clk req db resp db' :
  upload model_predict clk req db = (Returned resp, db') ->
  db_reports db'
  = insert (db_reports db) (fun i =>
      {| reports.id := i;
         reports.image := page_image resp;
         reports.latitude := bind_real (page_latitude resp);
         reports.longitude := bind_real (page_longitude resp);
         reports.address := page_address resp;
         reports.prediction := page_prediction resp;
         reports.created_at := now_report clk;
         reports.verified := 0;
         reports.confidence :=
           bind_real (snd (model_predict (os_path_join "static" (filename req))));
         reports.risk := page_risk resp |}).
Proof.
  intros Hup.
  destruct (upload_returned_inv _ _ _ _ _ _ Hup)
    as (result & confidence & Hpred & Hcases).
  assert (Hconf : confidence
                  = snd (model_predict (os_path_join "static" (filename req)))).
  { unfold predict_species in Hpred.
    destruct (_ <? _)%float; [ injection Hpred as _ <-; reflexivity | ].
    destruct (nth_error classes _); [ | discriminate ].
    injection Hpred as _ <-. reflexivity. }
  rewrite <- Hconf.
  destruct Hcases as [(_ & c & _ & -> & ->) | (_ & -> & ->)].
  - unfold saved, after_alert, after_anomaly.
    destruct (py_in _ ["High"; "Critical ðŸš¨"]); destruct (2 <=? c)%nat; reflexivity.
  - reflexivity.
Qed.

(** Round trip: after any sequence of requests, the page of the report that
    an upload has just stored shows what the upload's own page showed; a NaN
    coordinate is shown as None, and with a NaN confidence the page fails
    with TypeError. *)
Theorem result_page_shows_upload actions clk req resp db' :
  let db := replay model_predict actions in
  upload model_predict clk req db = (Returned resp, db') ->
  let new_id := Z.of_nat (List.length (rows (db_reports db))) + 1 in
  view_result py_round new_id db'
  = match bind_real (snd (model_predict (os_path_join "static" (filename req)))) with
    | None => Raised TypeError
    | Some c =>
        Returned (Result_page
          {| result_html.image := page_image resp;
             result_html.prediction := page_prediction resp;
             result_html.risk := page_risk resp;
             result_html.latitude := bind_real (page_latitude resp);
             result_html.longitude := bind_real (page_longitude resp);
             result_html.address := page_address resp;
             result_html.confidence := py_round (c * 100)%float 2 |})
    end.
Proof.
  cbv zeta. intros Hup.
  pose proof (replay_consistent model_predict (actions ++ [Upload clk req])) as Hdb'.
  unfold replay in Hdb'. rewrite fold_left_app in Hdb'. cbn [fold_left serve] in Hdb'.
  fold (replay model_predict actions) in Hdb'.
  unfold run_request in Hdb'. rewrite Hup in Hdb'. cbn [snd] in Hdb'.
  destruct Hdb' as (Hkeys & _).
  destruct (replay_consistent model_predict actions) as ((_ & Hauto) & _).
  pose proof (upload_report_row _ _ _ _ _ Hup) as Hrow.
  unfold view_result. rewrite (find_by_key _ _ _ Hkeys).
  rewrite Hrow. unfold insert. cbn [rows]. rewrite length_app. cbn [List.length].
  set (n := List.length (rows (db_reports (replay model_predict actions)))).
  destruct (Z.leb_spec 1 (Z.of_nat n + 1)); [ | lia ].
  destruct (Z.leb_spec (Z.of_nat n + 1) (Z.of_nat (n + 1))); [ | lia ].
  cbn [andb].
  replace (Z.to_nat (Z.of_nat n + 1 - 1)) with n by lia.
  rewrite nth_error_app2 by (subst n; lia).
  replace (n - List.length (rows (db_reports (replay model_predict actions))))%nat
    with 0%nat by (subst n; lia).
  cbn [nth_error reports.confidence].
  destruct (bind_real _); reflexivity.
Qed.

End ResultPage.

(** ** Dashboard, alerts and map *)

Lemma split_first_idempotent s : split_first (split_first s) = split_first s.
Proof.
  induction s as [ | c s IH ]; [ reflexivity | ].
  cbn [split_first].
  destruct (Ascii.eqb c " ") eqn:Hc; [ reflexivity | ].
  cbn [split_first]. rewrite Hc, IH. reflexivity.
Qed.

(** The text before the first space is not the name of an invasive species,
    nor a key of the solutions. *)
Lemma split_first_not_invasive s :
  py_in (split_first s) ["Apple snail"; "Asian longhorned beetle"] = false /\
  dict_get species_solutions (split_first s) "No solution available"
    = "No solution available".
Proof.
  assert (Hne : forall name, split_first name <> name ->
                  (split_first s =? name)%string = false).
  { intros name Hname. apply String.eqb_neq. intros Heq.
    apply Hname. rewrite <- Heq. apply split_first_idempotent. }
  unfold py_in, dict_get, species_solutions. cbn [existsb find fst snd].
  rewrite (String.eqb_sym "Apple snail"), (String.eqb_sym "Asian longhorned beetle").
  rewrite !Hne by (cbn; discriminate). split; reflexivity.
Qed.

(** An alert whose species column is empty is never shown as invasive and
    never gets a solution: the fallback reads the first word of the message,
    and both invasive names have two words or more. *)
Theorem alert_without_species_has_no_solution alert :
  alerts.species alert = "" ->
  alerts_html.is_invasive (alert_item alert) = false /\
  alerts_html.solution (alert_item alert) = "No solution available".
Proof.
  intros Hempty. unfold alert_item. rewrite Hempty.
  cbn [String.eqb negb alerts_html.is_invasive alerts_html.solution].
  apply split_first_not_invasive.
Qed.

Lemma alert_item_consistent a :
  alert_consistent a ->
  alerts_html.is_invasive (alert_item a) = true /\
  In (alerts_html.solution (alert_item a)) (map snd species_solutions) /\
  alerts_html.status (alert_item a) = "Active" /\
  (alerts_html.severity (alert_item a) = "High" \/
   alerts_html.severity (alert_item a) = "Critical ðŸš¨").
Proof.
  intros (Hstatus & Hspecies & Hseverity & _).
  apply py_in_high_critical in Hseverity.
  unfold alert_item.
  cbn [alerts_html.is_invasive alerts_html.solution alerts_html.status
       alerts_html.severity].
  split; [ | split; [ | split; [ exact Hstatus | exact Hseverity ] ] ].
  - unfold py_in, invasive_species in Hspecies. cbn [existsb] in Hspecies.
    rewrite orb_false_r, orb_true_iff, !String.eqb_eq in Hspecies.
    destruct Hspecies as [-> | ->]; reflexivity.
  - unfold py_in, invasive_species in Hspecies. cbn [existsb] in Hspecies.
    rewrite orb_false_r, orb_true_iff, !String.eqb_eq in Hspecies.
    destruct Hspecies as [-> | ->]; cbn; tauto.
Qed.

Lemma count_partition {A : Type} (P : A -> Prop) (p q s : A -> bool) (l : list A) :
  Forall P l ->
  (forall x, P x ->
     (if p x then 1 else 0) + (if q x then 1 else 0) + (if s x then 1 else 0) = 1)%nat ->
  List.length l
  = (List.length (filter p l) + List.length (filter q l)
     + List.length (filter s l))%nat.
Proof.
  intros Hall Hone. induction Hall as [ | x l Hx Hl IH ]; [ reflexivity | ].
  cbn [filter List.length]. specialize (Hone x Hx).
  destruct (p x); destruct (q x); destruct (s x); cbn [List.length]; lia.
Qed.

Lemma count_le {A : Type} (P : A -> Prop) (p q : A -> bool) (l : list A) :
  Forall P l ->
  (forall x, P x -> p x = true -> q x = true) ->
  (List.length (filter p l) <= List.length (filter q l))%nat.
Proof.
  intros Hall Himp. induction Hall as [ | x l Hx Hl IH ]; [ reflexivity | ].
  cbn [filter]. specialize (Himp x Hx).
  destruct (p x); destruct (q x); cbn [List.length];
    first [ lia | discriminate (Himp eq_refl) ].
Qed.

Lemma filter_all {A : Type} (l : list A) : filter (fun _ => true) l = l.
Proof.
  induction l as [ | x l IH ]; [ reflexivity | ].
  cbn [filter]. rewrite IH. reflexivity.
Qed.

Section ReadingPages.

Context {math : Math}.
Variable model_predict : string -> nat * float.
Variable order_by : forall R : Type, (R -> Z) -> list R -> list R.
Hypothesis order_by_orders : orders_by_desc order_by.

(** The newest report of the dashboard: none exactly when there is no
    report; otherwise the id of a report that no other report is later
    than. *)
Theorem dashboard_last_report now_current now_previous db :
  let page := dashboard order_by now_current now_previous db in
  (dashboard_html.last_report_id page = None <-> dashboard_html.total page = 0%nat) /\
  (forall i, dashboard_html.last_report_id page = Some i ->
     exists r, In r (rows (db_reports db)) /\ reports.id r = i /\
               forall r', In r' (rows (db_reports db)) ->
                          reports.created_at r' <= reports.created_at r).
Proof.
  cbv zeta. unfold dashboard.
  cbn [dashboard_html.last_report_id dashboard_html.total]. unfold select_count.
  destruct (order_by_orders _ reports.created_at (rows (db_reports db)))
    as (Hperm & Hsorted).
  rewrite filter_all.
  destruct (order_by _ reports.created_at (rows (db_reports db))) as [ | r l ];
    cbn [hd_error].
  - apply Permutation_sym, Permutation_nil in Hperm. rewrite Hperm. cbn.
    split; [ tauto | discriminate ].
  - split.
    + split; [ discriminate | ].
      intros Hlen. apply Permutation_length in Hperm. cbn in Hperm. lia.
    + intros i Hi. injection Hi as <-. exists r.
      split; [ apply (Permutation_in _ (Permutation_sym Hperm)); left; reflexivity | ].
      split; [ reflexivity | ].
      intros r' Hin. apply (Permutation_in _ Hperm) in Hin.
      inversion Hsorted as [ | ? ? _ Hall ]; subst.
      destruct Hin as [<- | Hin]; [ lia | ].
      rewrite Forall_forall in Hall. apply Hall. exact Hin.
Qed.

(** After any sequence of requests: every report is invasive, native or
    unknown; every alert is active, so the dashboard counts them all, and
    there are as many as reports of High or Critical risk, hence at most as
    many as invasive reports. *)
Theorem dashboard_counts actions now_current now_previous :
  let db := replay model_predict actions in
  let page := dashboard order_by now_current now_previous db in
  dashboard_html.total page
    = (dashboard_html.invasive page + dashboard_html.native page
       + select_count (fun r => (reports.prediction r =? "Unknown Species")%string) db)%nat /\
  dashboard_html.active_alerts page = List.length (rows (db_alerts db)) /\
  dashboard_html.active_alerts page
    = select_count (fun r => py_in (reports.risk r) ["High"; "Critical ðŸš¨"]) db /\
  (dashboard_html.active_alerts page <= dashboard_html.invasive page)%nat.
Proof.
  cbv zeta.
  destruct (replay_consistent model_predict actions)
    as (_ & _ & _ & Hr & Ha & _ & Hcount & _).
  set (db := replay model_predict actions) in *.
  unfold dashboard.
  cbn [dashboard_html.total dashboard_html.invasive dashboard_html.native
       dashboard_html.active_alerts].
  assert (Hactive : List.length (filter (fun a => (alerts.status a =? "Active")%string)
                                        (rows (db_alerts db)))
                    = List.length (rows (db_alerts db))).
  { clear Hcount. induction Ha as [ | a l (Hst & _) Hl IH ]; [ reflexivity | ].
    cbn [filter]. rewrite Hst. cbn [String.eqb Ascii.eqb Bool.eqb List.length].
    cbn. rewrite IH. reflexivity. }
  split.
  { unfold select_count.
    rewrite filter_all.
    apply (count_partition report_consistent); [ exact Hr | ].
    intros r (_ & [(Hp & _) | [(Hp & _) | (Hp & _)]]).
    - rewrite Hp. reflexivity.
    - rewrite Hp. reflexivity.
    - change (py_in (reports.prediction r) ["Apple snail"; "Asian longhorned beetle"])
        with (py_in (reports.prediction r) invasive_species).
      rewrite Hp.
      unfold py_in, invasive_species in Hp. cbn [existsb] in Hp.
      rewrite orb_false_r, orb_true_iff, !String.eqb_eq in Hp.
      destruct Hp as [-> | ->]; reflexivity. }
  split; [ exact Hactive | ].
  split; [ rewrite Hactive; exact Hcount | ].
  rewrite Hactive, Hcount. unfold select_count.
  apply (count_le report_consistent); [ exact Hr | ].
  intros r (_ & [(_ & Hrisk) | [(_ & Hrisk) | (Hp & _)]]) Hhigh.
  - rewrite Hrisk in Hhigh. discriminate.
  - rewrite Hrisk in Hhigh. discriminate.
  - exact Hp.
Qed.

(** After any sequence of requests, every entry of the alerts page is shown
    as invasive, with one of the two written solutions, Active, and of
    severity High or Critical; the page has one entry for each alert. *)
Theorem alerts_page_entries actions :
  let db := replay model_predict actions in
  Forall (fun item =>
            alerts_html.is_invasive item = true /\
            In (alerts_html.solution item) (map snd species_solutions) /\
            alerts_html.status item = "Active" /\
            (alerts_html.severity item = "High" \/
             alerts_html.severity item = "Critical ðŸš¨"))
         (alerts_route order_by db) /\
  List.length (alerts_route order_by db) = List.length (rows (db_alerts db)).
Proof.
  cbv zeta.
  destruct (replay_consistent model_predict actions) as (_ & _ & _ & _ & Ha & _).
  unfold alerts_route.
  destruct (order_by_orders _ alerts.created_at
              (rows (db_alerts (replay model_predict actions)))) as (Hperm & _).
  split.
  - rewrite Forall_map. apply (Permutation_Forall Hperm).
    revert Ha. apply Forall_impl. exact alert_item_consistent.
  - rewrite length_map. symmetry. apply Permutation_length. exact Hperm.
Qed.

(** After any sequence of requests, every circle of the map has radius
    20000 and the fixed description, and is centred on the marker of an
    invasive report. *)
Theorem map_circles_sit_on_invasive_reports actions :
  let db := replay model_predict actions in
  Forall (fun circle =>
            let '(latitude, longitude, radius, description) := circle in
            radius = Some 20000%float /\
            description = "Vegetation Stress Detected via Satellite Correlation" /\
            exists prediction,
              In (latitude, longitude, prediction) (fst (map_view db)) /\
              py_in prediction invasive_species = true)
         (snd (map_view db)) /\
  List.length (fst (map_view db)) = List.length (rows (db_reports db)) /\
  (List.length (snd (map_view db))
   <= select_count (fun r => py_in (reports.prediction r) invasive_species) db)%nat.
Proof.
  cbv zeta.
  destruct (replay_consistent model_predict actions)
    as (_ & _ & _ & _ & _ & Hn & _ & Hle).
  unfold map_view. cbn [fst snd]. rewrite !length_map.
  split; [ | split; [ reflexivity | exact Hle ] ].
  rewrite Forall_map. revert Hn. apply Forall_impl.
  intros a (Hrad & Hdesc & r & Hin & Hinv & Hlat & Hlon).
  split; [ exact Hrad | ]. split; [ exact Hdesc | ].
  exists (reports.prediction r). split; [ | exact Hinv ].
  rewrite <- Hlat, <- Hlon.
  exact (in_map (fun r0 => (reports.latitude r0, reports.longitude r0,
                            reports.prediction r0)) _ _ Hin).
Qed.

End ReadingPages.

(** ** Edges of an upload *)

(** A NaN is below nothing. *)
Lemma nan_not_below x y : PrimFloat.is_nan x = true -> (x <? y)%float = false.
Proof.
  unfold PrimFloat.is_nan. rewrite FloatAxioms.eqb_spec, FloatAxioms.ltb_spec.
  destruct (FloatOps.Prim2SF x) as [s | s | | s m e]; cbn.
  - destruct s; discriminate.
  - destruct s; discriminate.
  - reflexivity.
  - unfold SpecFloat.SFeqb, SpecFloat.SFcompare.
    destruct s; rewrite Z.compare_refl, Pos.compare_cont_refl; discriminate.
Qed.

Lemma exact_score_below c r f k :
  4 * Z.of_nat c + 3 * Z.of_nat r + 3 * Z.of_nat f < 10 * k ->
  (exact_score c r f < inject_Z k)%Q.
Proof.
  intros H. rewrite exact_score_tenths.
  apply Qlt_shift_div_r; [ reflexivity | ].
  change 10%Q with (inject_Z 10).
  rewrite <- inject_Z_mult, <- Zlt_Qlt. lia.
Qed.

Section UploadEdges.

Context {math : Math}.
Variable model_predict : string -> nat * float.

(** A class index that has no label raises IndexError, unless the confidence
    is below 0.70; nothing is written. *)
Theorem upload_class_index_out_of_range clk req db :
  let image_path := os_path_join "static" (filename req) in
  (snd (model_predict image_path) <? 0.70)%float = false ->
  (List.length classes <= fst (model_predict image_path))%nat ->
  predict_species model_predict image_path = Raised IndexError /\
  upload model_predict clk req db = (Raised IndexError, db) /\
  run_request (upload model_predict clk req) db = (Raised IndexError, db).
Proof.
  cbv zeta. intros Hconf Hidx.
  assert (Hpred : predict_species model_predict (os_path_join "static" (filename req))
                  = Raised IndexError).
  { unfold predict_species. rewrite Hconf.
    apply nth_error_None in Hidx. rewrite Hidx. reflexivity. }
  split; [ exact Hpred | ].
  assert (Hup : upload model_predict clk req db = (Raised IndexError, db))
    by (rewrite upload_eq, Hpred; reflexivity).
  split; [ exact Hup | ]. unfold run_request. rewrite Hup. reflexivity.
Qed.

(** A NaN confidence is not below 0.70: the upload is given the label of its
    class, not Unknown Species, and its confidence is stored as NULL. *)
Theorem nan_confidence_counts_as_confident clk req db resp db' label :
  let image_path := os_path_join "static" (filename req) in
  PrimFloat.is_nan (snd (model_predict image_path)) = true ->
  nth_error classes (fst (model_predict image_path)) = Some label ->
  upload model_predict clk req db = (Returned resp, db') ->
  page_prediction resp = label /\
  exists new_row,
    rows (db_reports db') = (rows (db_reports db) ++ [new_row])%list /\
    reports.prediction new_row = label /\
    reports.confidence new_row = None.
Proof.
  cbv zeta. intros Hnan Hlabel Hup.
  assert (Hpred : predict_species model_predict (os_path_join "static" (filename req))
                  = Returned (label, snd (model_predict
                                (os_path_join "static" (filename req))))).
  { unfold predict_species. rewrite (nan_not_below _ _ Hnan), Hlabel. reflexivity. }
  assert (Hlab : page_prediction resp = label).
  { destruct (upload_returned_inv _ _ _ _ _ _ Hup)
      as (result & confidence & Hpred' & [(_ & c & _ & -> & _) | (_ & -> & _)]);
      rewrite Hpred in Hpred'; injection Hpred' as <- _; reflexivity. }
  split; [ exact Hlab | ].
  pose proof (upload_report_row _ _ _ _ _ _ Hup) as Hrow.
  eexists. rewrite Hrow. unfold insert. cbn [rows].
  split; [ reflexivity | ].
  cbn [reports.prediction reports.confidence].
  split; [ exact Hlab | ].
  unfold bind_real. rewrite Hnan. reflexivity.
Qed.

(** The risk text of an upload goes with its label: Uncertain for Unknown
    Species, the native text for the Dung beetle, one of the four levels for
    an invasive species.  The text of line 170 is never shown or stored. *)
Theorem upload_risk_texts clk req db resp db' :
  upload model_predict clk req db = (Returned resp, db') ->
  ((page_prediction resp = "Unknown Species" /\
    page_risk resp = "Uncertain - Low Confidence Detection") \/
   (page_prediction resp = "Dung beetle" /\
    page_risk resp = "Low Risk (Native Species)") \/
   (py_in (page_prediction resp) invasive_species = true /\
    In (page_risk resp) ["Low"; "Moderate"; "High"; "Critical ðŸš¨"])) /\
  page_risk resp <> "High Risk (Invasive Species Detected)".
Proof.
  intros Hup.
  assert (Hcases :
    (page_prediction resp = "Unknown Species" /\
     page_risk resp = "Uncertain - Low Confidence Detection") \/
    (page_prediction resp = "Dung beetle" /\
     page_risk resp = "Low Risk (Native Species)") \/
    (py_in (page_prediction resp) invasive_species = true /\
     In (page_risk resp) ["Low"; "Moderate"; "High"; "Critical ðŸš¨"])).
  { destruct (upload_returned_inv _ _ _ _ _ _ Hup)
      as (result & confidence & Hpred & [(Hinv & c & _ & -> & _) | (Hno & -> & _)]);
      cbn [page_prediction page_risk page].
    - right. right. split; [ exact Hinv | apply risk_level_values ].
    - apply predict_species_values in Hpred.
      destruct Hpred as [-> | Hclass]; [ left; split; reflexivity | ].
      cbn in Hclass.
      destruct Hclass as [<- | [<- | [<- | []]]];
        [ right; left; split; reflexivity | discriminate Hno | discriminate Hno ]. }
  split; [ exact Hcases | ].
  destruct Hcases as [(_ & ->) | [(_ & ->) | (_ & Hin)]]; try discriminate.
  cbn in Hin. intros Heq. rewrite Heq in Hin.
  destruct Hin as [H | [H | [H | [H | []]]]]; discriminate H.
Qed.

(** How many recent reports a level takes: with at most 3 invasive reports
    in the trailing week an invasive upload is Low; with fewer than 9 no
    upload is High or Critical and no alert is written; with fewer than 13
    none is Critical. *)
Theorem few_recent_reports_raise_no_alert clk req db resp db' :
  upload model_predict clk req db = (Returned resp, db') ->
  let recent_count := List.length (select_recent_invasive (now_select clk) db) in
  ((recent_count <= 3)%nat ->
   py_in (page_prediction resp) invasive_species = true ->
   page_risk resp = "Low") /\
  ((recent_count < 9)%nat ->
   page_risk resp <> "High" /\ page_risk resp <> "Critical ðŸš¨" /\
   db_alerts db' = db_alerts db) /\
  ((recent_count < 13)%nat -> page_risk resp <> "Critical ðŸš¨").
Proof.
  intros Hup recent_count.
  destruct (upload_returned_inv _ _ _ _ _ _ Hup)
    as (result & confidence & _ & [(Hinv & c & Hc & -> & ->) | (Hno & -> & ->)]);
    cbn [page_prediction page_risk page].
  - fold recent_count in Hc |- *.
    assert (Hle : (c <= recent_count)%nat).
    { rewrite (count_cluster_counts _ _ _ _ _ Hc). cbn [Nat.add].
      apply filter_length_le. }
    assert (Hflag : (anomaly_flag_of c <= 1)%nat)
      by (unfold anomaly_flag_of; destruct (2 <=? c)%nat; lia).
    unfold scored_risk. clearbody recent_count.
    set (s := exact_score c recent_count (anomaly_flag_of c)).
    destruct (exact_level_intervals s) as (Hlow & Hmod & Hhigh & Hcrit).
    assert (Hbelow : forall k, 7 * Z.of_nat recent_count + 3 < 10 * k ->
                               (s < inject_Z k)%Q).
    { intros k Hk. apply exact_score_below. lia. }
    split; [ | split ].
    + intros H3 _.
      rewrite (risk_level_agrees_with_exact c recent_count Hle ltac:(lia)).
      apply Hlow. apply (Hbelow 3). lia.
    + intros H9.
      rewrite !(risk_level_agrees_with_exact c recent_count Hle ltac:(lia)).
      fold s.
      pose proof (Hbelow 6 ltac:(lia)) as H6.
      assert (Hnh : exact_level s <> "High")
        by (intros Heq; apply Hhigh in Heq; destruct Heq as (Hge & _);
            apply (Qlt_not_le _ _ H6 Hge)).
      assert (Hnc : exact_level s <> "Critical ðŸš¨")
        by (intros Heq; apply Hcrit in Heq;
            assert (s < 9)%Q by (apply (Qlt_trans _ _ _ H6); reflexivity);
            apply (Qlt_not_le s 9); assumption).
      split; [ exact Hnh | ]. split; [ exact Hnc | ].
      rewrite (proj1 (saved_others _ _ _ _ _ _)).
      unfold after_alert.
      destruct (py_in (exact_level s) _) eqn:Hin.
      * apply py_in_high_critical in Hin. tauto.
      * apply after_anomaly_others.
    + intros H13.
      rewrite (risk_level_agrees_with_exact c recent_count Hle ltac:(lia)).
      intros Heq. apply Hcrit in Heq.
      apply (Qlt_not_le s 9); [ apply (Hbelow 9); lia | exact Heq ].
  - pose proof (default_risk_no_alert result) as Hdef.
    assert (Hnot : ~ (default_risk result = "High" \/
                      default_risk result = "Critical ðŸš¨")).
    { rewrite <- py_in_high_critical. congruence. }
    split; [ intros _ Hinv; congruence | ].
    split; [ intros _ | intros _; tauto ].
    split; [ tauto | ]. split; [ tauto | ].
    apply saved_others.
Qed.

End UploadEdges.

Section Window.

Context {math : Math}.
Variable model_predict : string -> nat * float.

(** A fetched row with a NULL coordinate stops the loop, at that row or
    before it. *)
Lemma count_cluster_null latitude longitude window n row :
  In row window ->
  fst (fst row) = None \/ snd (fst row) = None ->
  exists e, count_cluster latitude longitude window n = Raised e.
Proof.
  intros Hin Hnull. revert n.
  induction window as [ | report rest IH ]; intros n; [ destruct Hin | ].
  cbn [count_cluster].
  destruct Hin as [-> | Hin].
  - destruct (fst (fst row)) as [lat | ]; [ | exists TypeError; reflexivity ].
    destruct Hnull as [Hlat | Hlon]; [ discriminate | ].
    rewrite Hlon. exists TypeError. reflexivity.
  - destruct (py_float (fst (fst report))) as [lat | e]; [ | exists e; reflexivity ].
    destruct (py_float (snd (fst report))) as [lon | e]; [ | exists e; reflexivity ].
    cbn [bind outcome_Monad].
    destruct (calculate_distance latitude longitude lat lon) as [dist | e];
      [ | exists e; reflexivity ].
    apply IH. exact Hin.
Qed.

(** A row of the week's window stays in it whatever request is served. *)
Lemma window_grows now db a x :
  In x (select_recent_invasive now db) ->
  In x (select_recent_invasive now (serve model_predict db a)).
Proof.
  intros Hin. destruct a as [clk req | report_id | report_id]; cbn [serve].
  - unfold run_request.
    destruct (upload model_predict clk req db) as [[resp | e] db'] eqn:Hup;
      cbn [snd]; [ | exact Hin ].
    pose proof (upload_report_row _ _ _ _ _ _ Hup) as Hrow.
    unfold select_recent_invasive in Hin |- *. rewrite Hrow. unfold insert.
    cbn [rows]. rewrite filter_app, map_app. apply in_or_app. left. exact Hin.
  - unfold run_request. rewrite approve_report_eq. cbn [snd].
    rewrite select_recent_invasive_update_verified. exact Hin.
  - unfold run_request. rewrite reject_report_eq. cbn [snd].
    rewrite select_recent_invasive_update_verified. exact Hin.
Qed.

(** An invasive report uploaded with a NaN coordinate is stored with a NULL
    one; whatever requests follow, every upload of an invasive species that
    has the report in its week fails on it before writing anything. *)
Theorem nan_coordinate_blocks_invasive_uploads
    clk req db resp db' later clk2 req2 result2 confidence2 :
  upload model_predict clk req db = (Returned resp, db') ->
  py_in (page_prediction resp) invasive_species = true ->
  PrimFloat.is_nan (form_latitude req) = true \/
  PrimFloat.is_nan (form_longitude req) = true ->
  now_select clk2 - seven_days <= now_report clk ->
  predict_species model_predict (os_path_join "static" (filename req2))
    = Returned (result2, confidence2) ->
  py_in result2 invasive_species = true ->
  let db2 := fold_left (serve model_predict) later db' in
  exists e,
    upload model_predict clk2 req2 db2 = (Raised e, db2) /\
    run_request (upload model_predict clk2 req2) db2 = (Raised e, db2).
Proof.
  intros Hup Hinv Hnan Hweek Hpred2 Hinv2 db2.
  pose proof (upload_report_row _ _ _ _ _ _ Hup) as Hrow.
  assert (Hpage : page_latitude resp = form_latitude req /\
                  page_longitude resp = form_longitude req).
  { destruct (upload_returned_inv _ _ _ _ _ _ Hup)
      as (? & ? & _ & [(_ & ? & _ & -> & _) | (_ & -> & _)]); split; reflexivity. }
  destruct Hpage as (Hlat & Hlon). rewrite Hlat, Hlon in Hrow.
  set (stored := (bind_real (form_latitude req), bind_real (form_longitude req),
                  now_report clk)).
  assert (Hin : In stored (select_recent_invasive (now_select clk2) db')).
  { unfold select_recent_invasive. rewrite Hrow. unfold insert. cbn [rows].
    rewrite filter_app, map_app. apply in_or_app. right.
    cbn [filter]. unfold recent_invasive at 1.
    cbn [reports.prediction reports.created_at]. rewrite Hinv.
    destruct (Z.leb_spec (now_select clk2 - seven_days) (now_report clk)); [ | lia ].
    cbn. left. reflexivity. }
  assert (Hin2 : In stored (select_recent_invasive (now_select clk2) db2)).
  { subst db2. clear Hup Hrow. revert db' Hin.
    induction later as [ | a later IH ]; intros db0 Hin0; cbn [fold_left];
      [ exact Hin0 | ].
    apply IH. apply window_grows. exact Hin0. }
  assert (Hnull : fst (fst stored) = None \/ snd (fst stored) = None).
  { subst stored. cbn [fst snd]. unfold bind_real.
    destruct Hnan as [-> | ->]; [ left | right ]; reflexivity. }
  destruct (count_cluster_null (form_latitude req2) (form_longitude req2)
              _ 0%nat stored Hin2 Hnull) as (e & Hraise).
  exists e.
  assert (Hup2 : upload model_predict clk2 req2 db2 = (Raised e, db2)).
  { rewrite upload_eq, Hpred2, Hinv2. cbv zeta. rewrite Hraise. reflexivity. }
  split; [ exact Hup2 | ]. unfold run_request. rewrite Hup2. reflexivity.
Qed.

(** The cluster count does not depend on the order in which the rows of the
    week are fetched. *)
Theorem cluster_count_ignores_row_order latitude longitude window window' n c :
  Permutation window window' ->
  count_cluster latitude longitude window n = Returned c ->
  count_cluster latitude longitude window' n = Returned c.
Proof.
  intros Hperm. revert n c.
  induction Hperm as [ | x l l' Hperm IH | x y l | l l' l'' _ IH1 _ IH2 ];
    intros n c H.
  - exact H.
  - cbn [count_cluster] in H |- *.
    destruct (py_float (fst (fst x))) as [lat | e]; [ | discriminate ].
    destruct (py_float (snd (fst x))) as [lon | e]; [ | discriminate ].
    cbn [bind outcome_Monad] in H |- *.
    destruct (calculate_distance latitude longitude lat lon) as [dist | e];
      [ | discriminate ].
    apply IH. exact H.
  - cbn [count_cluster] in H |- *.
    destruct (py_float (fst (fst y))) as [lat | e]; [ | discriminate ].
    destruct (py_float (snd (fst y))) as [lon | e]; [ | discriminate ].
    cbn [bind outcome_Monad] in H |- *.
    destruct (calculate_distance latitude longitude lat lon) as [dist | e];
      [ | discriminate ].
    destruct (py_float (fst (fst x))) as [lat' | e]; [ | discriminate ].
    destruct (py_float (snd (fst x))) as [lon' | e]; [ | discriminate ].
    cbn [bind outcome_Monad] in H |- *.
    destruct (calculate_distance latitude longitude lat' lon') as [dist' | e];
      [ | discriminate ].
    rewrite <- H. f_equal.
    destruct (dist <=? 20)%float; destruct (dist' <=? 20)%float; reflexivity.
  - apply IH2. apply IH1. exact H.
Qed.

(** An upload moves the weekly counts by its own report only: the current
    week by one when the species is invasive and the report's time is within
    seven days of 'now', the previous week by one when it is invasive and
    its time lies between the two bounds; a native or unknown upload moves
    neither. *)
Theorem upload_moves_trend_by_its_own_report
    clk req db resp db' now_current now_previous :
  upload model_predict clk req db = (Returned resp, db') ->
  let before := get_spread_trend now_current now_previous db in
  let after := get_spread_trend now_current now_previous db' in
  let is_invasive := py_in (page_prediction resp) invasive_species in
  fst (fst after)
    = (fst (fst before)
       + (if is_invasive && (now_current - seven_days <=? now_report clk)%Z
          then 1 else 0))%nat /\
  snd (fst after)
    = (snd (fst before)
       + (if is_invasive
             && ((now_previous - fourteen_days <=? now_report clk)%Z
                 && (now_report clk <=? now_previous - seven_days)%Z)
          then 1 else 0))%nat /\
  (is_invasive = false -> after = before).
Proof.
  intros Hup. cbv zeta.
  pose proof (upload_report_row _ _ _ _ _ _ Hup) as Hrow.
  assert (Hcur : select_count (recent_invasive now_current) db'
                 = (select_count (recent_invasive now_current) db
                    + (if py_in (page_prediction resp) invasive_species
                          && (now_current - seven_days <=? now_report clk)%Z
                       then 1 else 0))%nat)
    by (rewrite (select_count_insert _ db db' _ Hrow); reflexivity).
  assert (Hprev : select_count (previous_invasive now_previous) db'
                  = (select_count (previous_invasive now_previous) db
                     + (if py_in (page_prediction resp) invasive_species
                           && ((now_previous - fourteen_days <=? now_report clk)%Z
                               && (now_report clk <=? now_previous - seven_days)%Z)
                        then 1 else 0))%nat)
    by (rewrite (select_count_insert _ db db' _ Hrow); reflexivity).
  unfold get_spread_trend. cbn [fst snd]. rewrite Hcur, Hprev.
  split; [ reflexivity | ]. split; [ reflexivity | ].
  intros ->. cbn [andb]. rewrite !Nat.add_0_r. reflexivity.
Qed.

End Window.

Section Queue.

Context {math : Math}.
Variable model_predict : string -> nat * float.
Variable order_by : forall R : Type, (R -> Z) -> list R -> list R.
Hypothesis order_by_orders : orders_by_desc order_by.

(** An upload adds its report to the review queue, under the next id, and
    takes nothing out of it. *)
Theorem upload_joins_review_queue clk req db resp db' :
  upload model_predict clk req db = (Returned resp, db') ->
  (forall item, In item (admin_review order_by db) ->
                In item (admin_review order_by db')) /\
  exists item,
    In item (admin_review order_by db') /\
    review_html.id item = autoinc (db_reports db) + 1 /\
    review_html.image item = page_image resp /\
    review_html.prediction item = page_prediction resp /\
    review_html.created_at item = now_report clk.
Proof.
  intros Hup. pose proof (upload_report_row _ _ _ _ _ _ Hup) as Hrow.
  split.
  - intros item Hin.
    apply (in_admin_review order_by order_by_orders) in Hin.
    apply (in_admin_review order_by order_by_orders).
    destruct Hin as (r & Hr & Hv & ->). exists r.
    split; [ | auto ].
    rewrite Hrow. unfold insert. cbn [rows]. apply in_or_app. left. exact Hr.
  - eexists. split.
    + apply (in_admin_review order_by order_by_orders).
      eexists. split; [ | split; [ | reflexivity ] ].
      * rewrite Hrow. unfold insert. cbn [rows]. apply in_or_app.
        right. left. reflexivity.
      * reflexivity.
    + repeat split; reflexivity.
Qed.

End Queue.

Section StoredRows.

Context {math : Math}.
Variable model_predict : string -> nat * float.

(** After any sequence of requests: each report is unverified, approved or
    rejected and has the risk text of its label; each alert is Active, of an
    invasive species, of severity High or Critical, with the message made
    from its species; alerts and anomalies are numbered 1, 2, ... like the
    reports. *)
Theorem handlers_keep_rows_in_form actions :
  let db := replay model_predict actions in
  Forall report_consistent (rows (db_reports db)) /\
  Forall alert_consistent (rows (db_alerts db)) /\
  keys_in_sequence alerts.id (db_alerts db) /\
  keys_in_sequence anomalies.id (db_anomalies db).
Proof.
  cbv zeta.
  destruct (replay_consistent model_predict actions)
    as (_ & Hak & Hnk & Hr & Ha & _).
  repeat split; assumption || apply Hak || apply Hnk.
Qed.

End StoredRows.

(** ** Further runs on the sample inputs *)

(** The sample outbreak has the reports 1 to 10. *)
Lemma review_of_missing_report_witness :
  approve_report 11 sample_outbreak
  = (Returned "Report Approved! <a href='/admin/review'>Back to Review</a>",
     sample_outbreak).
Proof.
  apply (review_of_missing_report 11 sample_outbreak); [ lia | ].
  intros r Hin. vm_compute in Hin.
  repeat (destruct Hin as [<- | Hin]; [ discriminate | ]).
  destruct Hin.
Defined.

Lemma reviews_of_different_reports_commute_witness :
  snd (approve_report 1 (snd (reject_report 2 sample_outbreak)))
  = snd (reject_report 2 (snd (approve_report 1 sample_outbreak))).
Proof.
  apply (reviews_of_different_reports_commute 1 2 sample_outbreak).
  discriminate.
Defined.

Lemma admin_review_lists_unverified_witness :
  List.length (admin_review sort_desc sample_outbreak) = 10%nat.
Proof.
  destruct (admin_review_lists_unverified sort_desc sort_desc_orders sort_desc
              0 0 sample_outbreak) as (_ & _ & Hlen).
  rewrite Hlen. reflexivity.
Defined.

Lemma decided_report_leaves_queue_witness :
  In (review_row (sample_report 1 0 0 999000)) (admin_review sort_desc sample_outbreak) /\
  ~ In (review_row (sample_report 1 0 0 999000))
       (admin_review sort_desc (snd (approve_report 1 sample_outbreak))).
Proof.
  split; [ vm_compute; tauto | ].
  intros Hin.
  apply (decided_report_leaves_queue sort_desc sort_desc_orders 1 sample_outbreak) in Hin.
  destruct Hin as (_ & Hne). apply Hne. reflexivity.
Defined.

(** After the eleven uploads of the sample session, /result/12 finds no
    report. *)
Lemma result_page_found_iff_issued_witness :
  view_result (fun x _ => x) 12
    (replay (math := small_angle_math) (constant_model 1 0.9) sample_session)
  = Returned Report_not_found.
Proof.
  apply (result_page_found_iff_issued (math := small_angle_math)
           (constant_model 1 0.9) (fun x _ => x) sample_session 12 ltac:(lia)).
  right. vm_compute. reflexivity.
Defined.

Lemma result_page_shows_upload_witness :
  exists resp db',
    upload (math := small_angle_math) (constant_model 1 0.9) sample_clock
      (sample_request 0 0)
      (replay (math := small_angle_math) (constant_model 1 0.9) sample_session)
    = (Returned resp, db') /\
    exists page,
      view_result (fun x _ => x) 12 db' = Returned (Result_page page) /\
      result_html.risk page = page_risk resp /\
      result_html.prediction page = "Apple snail".
Proof.
  run_to_end (upload (math := small_angle_math) (constant_model 1 0.9) sample_clock
                (sample_request 0 0)
                (replay (math := small_angle_math) (constant_model 1 0.9)
                   sample_session)).
  pose proof (result_page_shows_upload (math := small_angle_math)
                (constant_model 1 0.9) (fun x _ => x) sample_session sample_clock
                (sample_request 0 0) _ _ Hup) as Hpage.
  cbv zeta in Hpage.
  eexists. split; [ exact Hpage | ]. split; reflexivity.
Defined.

Lemma alert_without_species_has_no_solution_witness :
  alerts_html.is_invasive (alert_item sample_legacy_alert) = false /\
  alerts_html.solution (alert_item sample_legacy_alert) = "No solution available".
Proof.
  apply (alert_without_species_has_no_solution sample_legacy_alert). reflexivity.
Defined.

Lemma dashboard_last_report_witness :
  exists r,
    In r (rows (db_reports sample_outbreak)) /\ reports.id r = 10 /\
    forall r', In r' (rows (db_reports sample_outbreak)) ->
               reports.created_at r' <= reports.created_at r.
Proof.
  apply (proj2 (dashboard_last_report sort_desc sort_desc_orders 0 0 sample_outbreak)).
  reflexivity.
Defined.

Lemma alerts_page_entries_witness :
  List.length (alerts_route sort_desc
                 (replay (math := small_angle_math) (constant_model 1 0.9)
                    sample_session))
  = 2%nat.
Proof.
  rewrite (proj2 (alerts_page_entries (math := small_angle_math)
                    (constant_model 1 0.9) sort_desc sort_desc_orders sample_session)).
  reflexivity.
Defined.

Lemma upload_class_index_out_of_range_witness :
  upload (math := small_angle_math) (constant_model 7 0.9) sample_clock
    (sample_request 0 0) sample_outbreak
  = (Raised IndexError, sample_outbreak).
Proof.
  apply (upload_class_index_out_of_range (math := small_angle_math)
           (constant_model 7 0.9) sample_clock (sample_request 0 0) sample_outbreak).
  - reflexivity.
  - cbn. lia.
Defined.

Lemma nan_confidence_counts_as_confident_witness :
  exists resp db',
    upload (math := small_angle_math) (constant_model 1 nan) sample_clock
      (sample_request 0 0) create_table = (Returned resp, db') /\
    page_prediction resp = "Apple snail".
Proof.
  run_to_end (upload (math := small_angle_math) (constant_model 1 nan) sample_clock
                (sample_request 0 0) create_table).
  apply (nan_confidence_counts_as_confident (math := small_angle_math)
           (constant_model 1 nan) sample_clock (sample_request 0 0) create_table
           _ _ "Apple snail" eq_refl eq_refl Hup).
Defined.

Lemma upload_risk_texts_witness :
  exists resp db',
    upload (math := small_angle_math) (constant_model 1 0.9) sample_clock
      (sample_request 0 0) sample_outbreak = (Returned resp, db') /\
    page_risk resp <> "High Risk (Invasive Species Detected)".
Proof.
  run_to_end (upload (math := small_angle_math) (constant_model 1 0.9) sample_clock
                (sample_request 0 0) sample_outbreak).
  apply (upload_risk_texts (math := small_angle_math) (constant_model 1 0.9)
           sample_clock (sample_request 0 0) sample_outbreak _ _ Hup).
Defined.

Lemma few_recent_reports_raise_no_alert_witness :
  exists resp db',
    upload (math := small_angle_math) (constant_model 1 0.9) sample_clock
      (sample_request 0 0) (database_of_reports (reports_at_origin 3 1 999000))
    = (Returned resp, db') /\
    page_risk resp = "Low".
Proof.
  run_to_end (upload (math := small_angle_math) (constant_model 1 0.9) sample_clock
                (sample_request 0 0)
                (database_of_reports (reports_at_origin 3 1 999000))).
  apply (proj1 (few_recent_reports_raise_no_alert (math := small_angle_math)
                  (constant_model 1 0.9) sample_clock (sample_request 0 0)
                  (database_of_reports (reports_at_origin 3 1 999000)) _ _ Hup)).
  - exact (le_n 3).
  - reflexivity.
Defined.

Lemma nan_coordinate_blocks_invasive_uploads_witness :
  exists resp db',
    upload (math := small_angle_math) (constant_model 1 0.9) sample_clock
      (sample_request nan 0) create_table = (Returned resp, db') /\
    exists e,
      upload (math := small_angle_math) (constant_model 1 0.9) sample_clock
        (sample_request 0 0) (snd (reject_report 1 db'))
      = (Raised e, snd (reject_report 1 db')).
Proof.
  run_to_end (upload (math := small_angle_math) (constant_model 1 0.9) sample_clock
                (sample_request nan 0) create_table).
  destruct (nan_coordinate_blocks_invasive_uploads (math := small_angle_math)
              (constant_model 1 0.9) sample_clock (sample_request nan 0)
              create_table _ _ [Reject 1] sample_clock (sample_request 0 0)
              "Apple snail" 0.9
              Hup eq_refl (or_introl eq_refl) ltac:(vm_compute; discriminate)
              eq_refl eq_refl)
    as (e & Hraise & _).
  exists e. exact Hraise.
Defined.

Lemma cluster_count_ignores_row_order_witness :
  count_cluster (math := small_angle_math) 0 0
    [(Some 1%float, Some 0%float, 0); (Some 0%float, Some 0%float, 0)] 0
  = Returned 1%nat.
Proof.
  apply (cluster_count_ignores_row_order (math := small_angle_math) 0 0
           [(Some 0%float, Some 0%float, 0); (Some 1%float, Some 0%float, 0)]
           [(Some 1%float, Some 0%float, 0); (Some 0%float, Some 0%float, 0)]
           0 1).
  - apply perm_swap.
  - reflexivity.
Defined.

Lemma upload_moves_trend_by_its_own_report_witness :
  exists resp db',
    upload (math := small_angle_math) (constant_model 1 0.9) sample_clock
      (sample_request 0 0) sample_outbreak = (Returned resp, db') /\
    fst (fst (get_spread_trend 1000000 1000000 db')) = 11%nat.
Proof.
  run_to_end (upload (math := small_angle_math) (constant_model 1 0.9) sample_clock
                (sample_request 0 0) sample_outbreak).
  rewrite (proj1 (upload_moves_trend_by_its_own_report (math := small_angle_math)
                    (constant_model 1 0.9) sample_clock (sample_request 0 0)
                    sample_outbreak _ _ 1000000 1000000 Hup)).
  reflexivity.
Defined.

Lemma upload_joins_review_queue_witness :
  exists resp db',
    upload (math := small_angle_math) (constant_model 1 0.9) sample_clock
      (sample_request 0 0) sample_outbreak = (Returned resp, db') /\
    exists item,
      In item (admin_review sort_desc db') /\ review_html.id item = 11.
Proof.
  run_to_end (upload (math := small_angle_math) (constant_model 1 0.9) sample_clock
                (sample_request 0 0) sample_outbreak).
  destruct (upload_joins_review_queue (math := small_angle_math)
              (constant_model 1 0.9) sort_desc sort_desc_orders sample_clock
              (sample_request 0 0) sample_outbreak _ _ Hup)
    as (_ & item & Hin & Hid & _).
  exists item. split; [ exact Hin | exact Hid ].
Defined.
